(** * Counters, classification and reporting of the two operator scripts

    A shallow embedding of [practice.py] (the brute-force driver) and
    [practice-3.py] (the scan-and-verify driver).

    Conventions of the embedding.
    - Python [int] is [Z]; Python [float] (clock readings, ratios) is [Q],
      rounding is not modelled.
    - Python [str] is [string]; the text handled by the scripts (tool output,
      addresses, service names) is ASCII, and the character classes below
      ([is_space], [lower]) are the ASCII part of Python's.
    - The module-level dictionaries [STATUS], [RESULTS] and [CONFIG] are
      records held in one [World], threaded through every function that
      touches them; the fields keep the dictionary keys.
    - A raised exception is an explicit [Raise] outcome carrying the world at
      the point of the raise; [try]/[except]/[finally] are combinators.
    - What the outside does (the tool run, the output file, the clock) is an
      argument of the function that consults it.
    - Worker threads are serialised at task granularity: a schedule is the
      list of tasks in completion order. *)

From Stdlib Require Import String Ascii List ZArith QArith Bool Lia Permutation.
Import ListNotations.
Open Scope string_scope.
Open Scope Z_scope.

(** ** Text primitives *)

Module Text.

(** [sub in s] *)
Fixpoint contains (sub s : string) : bool :=
  if String.prefix sub s then true
  else match s with
       | EmptyString => false
       | String _ s' => contains sub s'
       end.

(** [s.split(sep)] for a one-character separator. *)
Fixpoint split (sep : ascii) (s : string) : list string :=
  match s with
  | EmptyString => [EmptyString]
  | String c s' =>
      if Ascii.eqb c sep then EmptyString :: split sep s'
      else match split sep s' with
           | h :: t => String c h :: t
           | [] => [String c EmptyString]
           end
  end.

(** ASCII characters for which [str.isspace()] holds: TAB..CR, FS..US, SPACE. *)
Definition is_space (c : ascii) : bool :=
  let n := nat_of_ascii c in
  ((9 <=? n) && (n <=? 13) || (28 <=? n) && (n <=? 32))%nat.

(** [s.split()]: maximal runs of non-space characters. *)
Fixpoint split_ws (s : string) : list string :=
  match s with
  | EmptyString => []
  | String c s' =>
      if is_space c then split_ws s'
      else match s' with
           | EmptyString => [String c EmptyString]
           | String c' _ =>
               if is_space c' then String c EmptyString :: split_ws s'
               else match split_ws s' with
                    | h :: t => String c h :: t
                    | [] => [String c EmptyString]
                    end
           end
  end.

(** [sep.join(l)] *)
Fixpoint join (sep : string) (l : list string) : string :=
  match l with
  | [] => EmptyString
  | [x] => x
  | x :: rest => x ++ sep ++ join sep rest
  end.

Definition lower_char (c : ascii) : ascii :=
  let n := nat_of_ascii c in
  if ((65 <=? n) && (n <=? 90))%nat then ascii_of_nat (n + 32) else c.

Definition upper_char (c : ascii) : ascii :=
  let n := nat_of_ascii c in
  if ((97 <=? n) && (n <=? 122))%nat then ascii_of_nat (n - 32) else c.

Fixpoint map_chars (f : ascii -> ascii) (s : string) : string :=
  match s with
  | EmptyString => EmptyString
  | String c s' => String (f c) (map_chars f s')
  end.

(** [s.lower()], [s.upper()] on ASCII text.  On other text Python differs:
    [str.upper] maps some non-ASCII letters to ASCII ones, so statements
    about [upper] are made for ASCII text only. *)
Definition lower : string -> string := map_chars lower_char.
Definition upper : string -> string := map_chars upper_char.

(** [s.replace(a, b)] for one-character [a] and [b]. *)
Definition replace (a b : ascii) : string -> string :=
  map_chars (fun c => if Ascii.eqb c a then b else c).

(** [l.index(x)]: position of the first element equal to [x]. *)
Fixpoint index (x : string) (l : list string) : option nat :=
  match l with
  | [] => None
  | y :: l' => if String.eqb y x then Some O
               else option_map S (index x l')
  end.

(** [s.strip()] *)
Fixpoint lstrip (s : string) : string :=
  match s with
  | EmptyString => EmptyString
  | String c s' => if is_space c then lstrip s' else s
  end.

Fixpoint rstrip (s : string) : string :=
  match s with
  | EmptyString => EmptyString
  | String c s' =>
      match rstrip s' with
      | EmptyString => if is_space c then EmptyString else String c EmptyString
      | r => String c r
      end
  end.

Definition strip (s : string) : string := rstrip (lstrip s).

Definition LF : ascii := ascii_of_nat 10.
Definition NL : string := String LF EmptyString.

(** [[line.strip() for line in f if line.strip()]] over the text of a file. *)
Definition stripped_lines (content : string) : list string :=
  filter (fun l => negb (String.eqb l EmptyString))
         (map strip (split LF content)).

End Text.

(** ** Exceptions and the effect monad *)

(** The [Exception] subclasses the scripts can meet.  Signals outside
    [Exception] ([KeyboardInterrupt], [SystemExit]) are not delivered inside
    a worker; [sys.exit] in [main] is a [Termination], below. *)
Inductive Exn : Type :=
| TimeoutExpired
| ValueError
| IndexError
| KeyError
| ZeroDivisionError
| JSONDecodeError
| FileNotFoundError
| OSError
| OtherException (name : string).

Definition exn_eqb (a b : Exn) : bool :=
  match a, b with
  | TimeoutExpired, TimeoutExpired
  | ValueError, ValueError
  | IndexError, IndexError
  | KeyError, KeyError
  | ZeroDivisionError, ZeroDivisionError
  | JSONDecodeError, JSONDecodeError
  | FileNotFoundError, FileNotFoundError
  | OSError, OSError => true
  | OtherException x, OtherException y => String.eqb x y
  | _, _ => false
  end.

Section Effects.

Variable W : Type.

Inductive Outcome (A : Type) : Type :=
| Return (a : A) (w : W)
| Raise (e : Exn) (w : W).

Definition Py (A : Type) : Type := W -> Outcome A.

Definition ret {A} (a : A) : Py A := fun w => Return A a w.

Definition raise {A} (e : Exn) : Py A := fun w => Raise A e w.

Definition bind {A B} (m : Py A) (k : A -> Py B) : Py B :=
  fun w => match m w with
           | Return _ a w' => k a w'
           | Raise _ e w' => Raise B e w'
           end.

Definition modify (f : W -> W) : Py unit := fun w => Return unit tt (f w).

Definition gets {A} (f : W -> A) : Py A := fun w => Return A (f w) w.

(** [try: body / except <those for which handles holds>: handler] *)
Definition try_except {A} (body : Py A) (handles : Exn -> bool)
           (handler : Exn -> Py A) : Py A :=
  fun w => match body w with
           | Return _ a w' => Return A a w'
           | Raise _ e w' => if handles e then handler e w'
                             else Raise A e w'
           end.

(** [try: body / finally: final]; an exception of [final] replaces the
    pending one. *)
Definition try_finally {A} (body : Py A) (final : Py unit) : Py A :=
  fun w => match body w with
           | Return _ a w' =>
               match final w' with
               | Return _ _ w'' => Return A a w''
               | Raise _ e w'' => Raise A e w''
               end
           | Raise _ e w' =>
               match final w' with
               | Return _ _ w'' => Raise A e w''
               | Raise _ e' w'' => Raise A e' w''
               end
           end.

(** A lookup that raises when it finds nothing. *)
Definition lookup_or {A} (e : Exn) (o : option A) : Py A :=
  match o with
  | Some a => ret a
  | None => raise e
  end.

Definition world_of {A} (o : Outcome A) : W :=
  match o with
  | Return _ _ w => w
  | Raise _ _ w => w
  end.

Definition returns {A} (o : Outcome A) : bool :=
  match o with
  | Return _ _ _ => true
  | Raise _ _ _ => false
  end.

End Effects.

Arguments Return {W A} a w.
Arguments Raise {W A} e w.
Arguments ret {W A} a _.
Arguments raise {W A} e _.
Arguments bind {W A B} m k _.
Arguments modify {W} f _.
Arguments gets {W A} f _.
Arguments try_except {W A} body handles handler _.
Arguments try_finally {W A} body final _.
Arguments lookup_or {W A} e o _.
Arguments world_of {W A} o.
Arguments returns {W A} o.

Declare Scope py_scope.
Delimit Scope py_scope with py.
Notation "x <- m ;; k" := (bind m (fun x => k))
  (at level 61, m at next level, right associativity) : py_scope.
Notation "m ;; k" := (bind m (fun _ => k))
  (at level 61, right associativity) : py_scope.

(** ** Process termination *)

(** How the process ends. *)
Inductive Termination : Type :=
| Completed                   (* main returns *)
| SysExit (code : Z)          (* sys.exit(code) *)
| Uncaught (e : Exn).         (* traceback *)

Definition exit_status (t : Termination) : Z :=
  match t with
  | Completed => 0
  | SysExit code => code
  | Uncaught _ => 1
  end.

(** ** practice.py: the brute-force driver *)

Module Brute.

Import Text.
Local Open Scope py_scope.

(** [CONFIG], flattened: ['telegram'], ['brute_force'] and ['tools']. *)
Record Config : Type := mkConfig {
  bot_token : string;
  chat_id : string;
  max_threads : Z;
  timeout_per_host : Z;
  hydra : string;
  ncrack : string
}.

(** [STATUS] *)
Record Status : Type := mkStatus {
  total : Z;
  tried : Z;
  good : Z;
  bad : Z;
  na : Z;
  start_time : Q;
  running : bool
}.

(** One entry of [RESULTS['success']]. *)
Record Login : Type := mkLogin {
  service : string;
  target : string;
  username : string;
  password : string;
  timestamp : string
}.

(** [RESULTS] *)
Record Results : Type := mkResults {
  success : list Login;
  failures : list Login
}.

(** The texts handed to [send_telegram_message]: one constructor per
    f-string of the source, carrying the interpolated values. *)
Inductive Message : Type :=
| LoginAlert (r : Login)
| StatusUpdate (good bad na tried total : Z) (elapsed remaining completion : Q)
| AttackStarted (service : string) (targets : Z)
                (username password_list start : string)
| AttackCompleted (total good bad na : Z) (elapsed : Q)
                  (logins : list Login) (none_found : bool).

(** What the script does to the operating system. *)
Inductive SysEvent : Type :=
| Spawned (cmd : list string)
| Killed (cmd : list string)
| Removed (path : string)
| Written (path : string).

Record World : Type := mkWorld {
  STATUS : Status;
  RESULTS : Results;
  CONFIG : Config;
  outbox : list Message;      (* requests.post calls, oldest first *)
  syslog : list SysEvent      (* oldest first *)
}.

Definition CONFIG0 : Config :=
  {| bot_token := "YOUR_TELEGRAM_BOT_TOKEN";
     chat_id := "YOUR_TELEGRAM_CHAT_ID";
     max_threads := 4;
     timeout_per_host := 60;
     hydra := "/usr/bin/hydra";
     ncrack := "/usr/bin/ncrack" |}.

(** The module-level initial values; [t0] is [time.time()] at import. *)
Definition STATUS0 (t0 : Q) : Status :=
  {| total := 0; tried := 0; good := 0; bad := 0; na := 0;
     start_time := t0; running := true |}.

Definition RESULTS0 : Results := {| success := []; failures := [] |}.

Definition world0 (t0 : Q) : World :=
  {| STATUS := STATUS0 t0; RESULTS := RESULTS0; CONFIG := CONFIG0;
     outbox := []; syslog := [] |}.

(** *** Updates of the shared dictionaries *)

Definition with_status (f : Status -> Status) (w : World) : World :=
  mkWorld (f (STATUS w)) (RESULTS w) (CONFIG w) (outbox w) (syslog w).

(** [STATUS['good'] += 1] and its siblings *)
Definition incr_good : Status -> Status :=
  fun s => mkStatus (total s) (tried s) (good s + 1) (bad s) (na s)
                    (start_time s) (running s).
Definition incr_bad : Status -> Status :=
  fun s => mkStatus (total s) (tried s) (good s) (bad s + 1) (na s)
                    (start_time s) (running s).
Definition incr_na : Status -> Status :=
  fun s => mkStatus (total s) (tried s) (good s) (bad s) (na s + 1)
                    (start_time s) (running s).
Definition incr_tried : Status -> Status :=
  fun s => mkStatus (total s) (tried s + 1) (good s) (bad s) (na s)
                    (start_time s) (running s).
Definition set_total (n : Z) : Status -> Status :=
  fun s => mkStatus n (tried s) (good s) (bad s) (na s)
                    (start_time s) (running s).
Definition set_running (b : bool) : Status -> Status :=
  fun s => mkStatus (total s) (tried s) (good s) (bad s) (na s)
                    (start_time s) b.

(** [RESULTS['success'].append(result)] *)
Definition append_success (r : Login) (w : World) : World :=
  mkWorld (STATUS w)
          (mkResults (success (RESULTS w) ++ [r]) (failures (RESULTS w)))
          (CONFIG w) (outbox w) (syslog w).

Definition set_hydra (path : string) (w : World) : World :=
  let c := CONFIG w in
  mkWorld (STATUS w) (RESULTS w)
          (mkConfig (bot_token c) (chat_id c) (max_threads c)
                    (timeout_per_host c) path (ncrack c))
          (outbox w) (syslog w).

Definition post (m : Message) (w : World) : World :=
  mkWorld (STATUS w) (RESULTS w) (CONFIG w) (outbox w ++ [m]) (syslog w).

Definition log (e : SysEvent) (w : World) : World :=
  mkWorld (STATUS w) (RESULTS w) (CONFIG w) (outbox w) (syslog w ++ [e]).

(** *** send_telegram_message *)

(** With the placeholder token nothing is posted; otherwise one post is
    made, and whatever it raises is swallowed. *)
Definition send_telegram_message (message : Message) : Py World unit :=
  token <- gets (fun w => bot_token (CONFIG w)) ;;
  if String.eqb token "YOUR_TELEGRAM_BOT_TOKEN" then ret tt
  else try_except (modify (post message)) (fun _ => true) (fun _ => ret tt).

(** *** analyze_hydra_output *)

(** [parts[i]] *)
Definition item (parts : list string) (i : nat) : Py World string :=
  lookup_or IndexError (nth_error parts i).

(** [parts.index(x)] *)
Definition index_of (x : string) (parts : list string) : Py World nat :=
  lookup_or ValueError (index x parts).

Definition has_login_tokens (line : string) : bool :=
  contains "login:" line && contains "password:" line.

(** The condition of the [if] at the head of the loop body. *)
Definition is_success_line (line : string) : bool :=
  has_login_tokens line || (contains "[ssh]" line && contains "host:" line).

(** The two extraction patterns inside the [try]. *)
Definition extract (line : string) : Py World (string * string) :=
  let parts := split_ws line in
  if has_login_tokens line then
    i <- index_of "login:" parts ;;
    username <- item parts (i + 1) ;;
    j <- index_of "password:" parts ;;
    password <- item parts (j + 1) ;;
    ret (username, password)
  else
    i <- index_of "[ssh]" parts ;;
    username <- item parts (i + 3) ;;
    j <- index_of "[ssh]" parts ;;
    password <- item parts (j + 5) ;;
    ret (username, password).

Definition parse_errors (e : Exn) : bool :=
  match e with
  | ValueError | IndexError => true
  | _ => false
  end.

(** The [try] ... [except (ValueError, IndexError): continue] of one
    matching line; [now] is [datetime.now().isoformat()]. *)
Definition record_line (now service target line : string) : Py World unit :=
  try_except
    (up <- extract line ;;
     let result := mkLogin service target (fst up) (snd up) now in
     modify (append_success result) ;;
     modify (with_status incr_good) ;;
     send_telegram_message (LoginAlert result))
    parse_errors
    (fun _ => ret tt).

(** [for x in l: body(x)] *)
Fixpoint for_each {A : Type} (l : list A) (body : A -> Py World unit)
  : Py World unit :=
  match l with
  | [] => ret tt
  | x :: l' => body x ;; for_each l' body
  end.

Definition analyze_hydra_output (now output service target : string)
  : Py World unit :=
  for_each (split LF output)
           (fun line => if is_success_line line
                        then record_line now service target line
                        else ret tt).

(** *** brute_force_service *)

(** What can go wrong when a process is spawned or a file is read.
    [TimeoutExpired] is not among them: only [communicate] raises it. *)
Inductive Fault : Type :=
| NotFound
| Denied
| Other (name : string).

Definition exn_of (f : Fault) : Exn :=
  match f with
  | NotFound => FileNotFoundError
  | Denied => OSError
  | Other name => OtherException name
  end.

(** What the spawned tool does, as seen through [Popen]/[communicate]. *)
Inductive ProcRun : Type :=
| SpawnFails (f : Fault)      (* Popen raises *)
| TimesOut                    (* communicate raises TimeoutExpired *)
| Exits (returncode : Z).

(** The output artifact when the script looks at it. *)
Inductive OutputFile : Type :=
| Absent
| Holds (content : string)    (* exists; readable *)
| Unreadable (f : Fault).     (* exists, non-empty; open/read raises *)

Record ToolRun : Type := mkRun {
  proc : ProcRun;
  file : OutputFile
}.

(** [os.path.exists(output_file)] *)
Definition file_exists (f : OutputFile) : bool :=
  match f with
  | Absent => false
  | _ => true
  end.

(** [os.path.exists(output_file) and os.path.getsize(output_file) > 0] *)
Definition exists_nonempty (f : OutputFile) : bool :=
  match f with
  | Absent => false
  | Holds content => negb (String.eqb content "")
  | Unreadable _ => true
  end.

(** [with open(output_file, 'r') as f: output = f.read()] *)
Definition read_file (f : OutputFile) : Py World string :=
  match f with
  | Holds content => ret content
  | Unreadable f => raise (exn_of f)
  | Absent => raise FileNotFoundError
  end.

Definition output_path (service target : string) : string :=
  "/tmp/bruteforce_" ++ service ++ "_" ++ replace "." "_" target ++ ".txt".

(** The [if]/[elif]/[else] choosing the command line; [None] is the
    [else: return] branch. *)
Definition command (c : Config)
           (service target username password_list output_file : string)
  : option (list string) :=
  if String.eqb (lower service) "ssh" then
    Some [hydra c; "-l"; username; "-P"; password_list; "-t"; "2"; "-v"; "-f";
          "-o"; output_file; "ssh://" ++ target]
  else if String.eqb (lower service) "rdp" then
    Some [ncrack c; "-vv"; "--user"; username; "--passwords"; password_list;
          "rdp://" ++ target; "-oN"; output_file]
  else None.

Definition supported (service : string) : bool :=
  String.eqb (lower service) "ssh" || String.eqb (lower service) "rdp".

Definition Popen (cmd : list string) (run : ToolRun) : Py World unit :=
  match proc run with
  | SpawnFails f => raise (exn_of f)
  | _ => modify (log (Spawned cmd))
  end.

Definition communicate (run : ToolRun) : Py World unit :=
  match proc run with
  | TimesOut => raise TimeoutExpired
  | _ => ret tt
  end.

(** The body of the [try]. *)
Definition attempt (run : ToolRun) (now service target : string)
           (cmd : list string) : Py World unit :=
  Popen cmd run ;;
  communicate run ;;
  if exists_nonempty (file run) then
    output <- read_file (file run) ;;
    analyze_hydra_output now output service target
  else
    modify (with_status incr_bad).

(** [except subprocess.TimeoutExpired] first, then [except Exception].
    [process] is bound whenever the first handler runs. *)
Definition recover (cmd : list string) (e : Exn) : Py World unit :=
  if exn_eqb e TimeoutExpired then
    modify (log (Killed cmd)) ;;
    modify (with_status incr_na)
  else
    modify (with_status incr_na).

(** The [finally] block. *)
Definition cleanup (run : ToolRun) (output_file : string) : Py World unit :=
  modify (with_status incr_tried) ;;
  try_except
    (if file_exists (file run) then modify (log (Removed output_file))
     else ret tt)
    (fun _ => true)
    (fun _ => ret tt).

Definition brute_force_service (run : ToolRun) (now : string)
           (service target username password_list : string) : Py World unit :=
  let output_file := output_path service target in
  c <- gets CONFIG ;;
  match command c service target username password_list output_file with
  | None => ret tt
  | Some cmd =>
      try_finally
        (try_except (attempt run now service target cmd)
                    (fun _ => true)
                    (recover cmd))
        (cleanup run output_file)
  end.

(** *** status_monitor *)

(** One pass through the body of the [while] loop, before the sleep;
    [now] is [time.time()].  The completion ratio is a true division. *)
Definition status_tick (now : Q) : Py World unit :=
  s <- gets STATUS ;;
  let elapsed := (now - start_time s)%Q in
  let tried' := Z.max 1 (tried s) in
  let remaining :=
    (elapsed / inject_Z tried' * inject_Z (Z.max 0 (total s - tried s)))%Q in
  completion <- (if total s =? 0 then raise ZeroDivisionError
                 else ret (inject_Z (tried s) / inject_Z (total s)
                           * inject_Z 100)%Q) ;;
  send_telegram_message
    (StatusUpdate (good s) (bad s) (na s) (tried s) (total s)
                  elapsed remaining completion).

(** The loop, one clock reading per iteration that the thread gets to make.
    An exception ends the thread. *)
Fixpoint status_monitor (ticks : list Q) : Py World unit :=
  match ticks with
  | [] => ret tt
  | now :: later =>
      r <- gets (fun w => running (STATUS w)) ;;
      if r then status_tick now ;; status_monitor later
      else ret tt
  end.

(** *** main *)

(** What [main] finds outside the process. *)
Record Env : Type := mkEnv {
  argv : list string;
  isfile : string -> bool;                 (* os.path.isfile *)
  which_hydra : Z * string;                (* returncode, stdout of `which` *)
  read_text : string -> Exn + string;      (* open(path).read() *)
  tool : nat -> ToolRun;                   (* the run of the n-th task *)
  clock : nat -> string;                   (* datetime.now() of the n-th task *)
  started : string;                        (* datetime.now() at the start *)
  finished : Q;                            (* time.time() at the end *)
  stamp : string;                          (* datetime.now() at the end *)
  writable : bool                          (* the results file can be written *)
}.

(** A task handed to the pool. *)
Record Task : Type := mkTask {
  task_run : ToolRun;
  task_now : string;
  task_target : string
}.

(** [executor.submit(f, ...)]: the call runs in a worker; whatever it raises
    is kept in the future, which nobody reads. *)
Definition submit (f : Py World unit) : Py World unit :=
  fun w => Return tt (world_of (f w)).

(** The [with ThreadPoolExecutor(...)] block over a schedule of tasks.
    The tasks are taken one at a time in the order of the schedule, which
    stands for the order in which the workers complete; how the events of
    overlapping tasks fall between one another is not modelled. *)
Definition dispatch (service username password_list : string)
           (tasks : list Task) : Py World unit :=
  for_each tasks
           (fun t => submit (brute_force_service (task_run t) (task_now t)
                               service (task_target t)
                               username password_list)).

Fixpoint schedule_from (env : Env) (n : nat) (targets : list string)
  : list Task :=
  match targets with
  | [] => []
  | t :: rest => mkTask (tool env n) (clock env n) t
                 :: schedule_from env (S n) rest
  end.

(** The final report, built from the shared state. *)
Definition final_msg (elapsed : Q) (w : World) : Message :=
  let s := STATUS w in
  AttackCompleted (total s) (good s) (bad s) (na s) elapsed
                  (success (RESULTS w))
                  (match success (RESULTS w) with [] => true | _ => false end).

(** "Read targets" and [STATUS['total'] = len(targets)], given the text of
    the targets file. *)
Definition load_targets (content : string) : Py World (list string) :=
  let targets := stripped_lines content in
  modify (with_status (set_total (Z.of_nat (length targets)))) ;;
  ret targets.

(** [main] from "Read targets" on.  The [status_monitor] thread is started
    right after [load_targets] and runs beside the rest: the status
    updates it sends through the same notifier are not part of what
    [session] posts, and the tasks are scheduled in the order they were
    submitted. *)
Definition session (env : Env)
           (service username password_list content : string)
  : Py World unit :=
  targets <- load_targets content ;;
  send_telegram_message
    (AttackStarted service (Z.of_nat (length targets))
                   username password_list (started env)) ;;
  dispatch service username password_list (schedule_from env 0 targets) ;;
  modify (with_status (set_running false)) ;;
  t0 <- gets (fun w => start_time (STATUS w)) ;;
  msg <- gets (final_msg (finished env - t0)%Q) ;;
  send_telegram_message msg ;;
  if writable env
  then modify (log (Written ("bruteforce_results_" ++ stamp env ++ ".json")))
  else raise OSError.

(** The tool check: [None] is [sys.exit(1)]. *)
Definition locate_hydra (env : Env) (w : World) : option World :=
  if isfile env (hydra (CONFIG w)) then Some w
  else if fst (which_hydra env) =? 0
       then Some (set_hydra (strip (snd (which_hydra env))) w)
       else None.

Definition main (env : Env) (w : World) : Termination * World :=
  if Z.of_nat (length (argv env)) <? 5 then (SysExit 1, w) else
  let service := nth 1 (argv env) "" in
  let targets_file := nth 2 (argv env) "" in
  let username := nth 3 (argv env) "" in
  let password_list := nth 4 (argv env) "" in
  if negb (isfile env targets_file) then (SysExit 1, w) else
  if negb (isfile env password_list) then (SysExit 1, w) else
  match locate_hydra env w with
  | None => (SysExit 1, w)
  | Some w1 =>
      match read_text env targets_file with
      | inl e => (Uncaught e, w1)
      | inr content =>
          match session env service username password_list content w1 with
          | Return _ w2 => (Completed, w2)
          | Raise e w2 => (Uncaught e, w2)
          end
      end
  end.

End Brute.

(** ** practice-3.py: the scan-and-verify driver *)

Module Scan.

Import Text.
Local Open Scope py_scope.

(** One element of an entry's ['ports'] list; [port] is absent when the
    key is. *)
Record PortEntry : Type := mkPort {
  port : option Z
}.

(** One entry of the scan tool's JSON report; a field is [None] when the
    key is absent. *)
Record Item : Type := mkItem {
  ip : option string;
  ports : option (list PortEntry)
}.

(** One element of [results]: the keys ['ip'], ['port'], ['status']. *)
Record Candidate : Type := mkCandidate {
  cand_ip : string;
  cand_port : Z;
  cand_status : string
}.

(** What the scan tool does, as seen through [subprocess.run]; [stdout] is
    the result of [json.loads], [None] when it raises [JSONDecodeError]. *)
Inductive ScanRun : Type :=
| ScanFails (e : Exn)
| ScanTimesOut
| ScanExits (returncode : Z) (stdout : option (list Item)).

(** The body of the [for item in scan_data] loop; the state is the local
    list [results]. *)
Definition collect (item : Item) : Py (list Candidate) unit :=
  match ip item, ports item with
  | Some a, Some ps =>
      first <- lookup_or IndexError (nth_error ps 0) ;;
      n <- lookup_or KeyError (port first) ;;
      modify (fun results => (results ++ [mkCandidate a n "open"])%list)
  | _, _ => ret tt
  end.

Fixpoint collect_all (scan_data : list Item) : Py (list Candidate) unit :=
  match scan_data with
  | [] => ret tt
  | item :: rest => collect item ;; collect_all rest
  end.

(** The body of the outer [try]. *)
Definition scan_body (run : ScanRun) : Py (list Candidate) unit :=
  match run with
  | ScanFails e => raise e
  | ScanTimesOut => raise TimeoutExpired
  | ScanExits returncode stdout =>
      if returncode =? 0 then
        try_except
          (scan_data <- lookup_or JSONDecodeError stdout ;;
           collect_all scan_data)
          (fun e => exn_eqb e JSONDecodeError)
          (fun _ => ret tt)
      else ret tt
  end.

(** [masscan_ips]: both handlers of the outer [try] only print, the
    [finally] removes the temporary file, and [results] is returned as it
    stands. *)
Definition masscan_ips (run : ScanRun) : list Candidate :=
  world_of
    (try_finally
       (try_except (scan_body run) (fun _ => true) (fun _ => ret tt))
       (ret tt)
       []).

(** What the probe does, as seen through [subprocess.run]. *)
Inductive ProbeRun : Type :=
| ProbeFails (e : Exn)
| ProbeExits (returncode : Z).

(** [verify_service] *)
Definition verify_service (probe : ProbeRun) (service : string) : bool :=
  if String.eqb (lower service) "ssh" || String.eqb (lower service) "rdp"
  then match probe with
       | ProbeExits returncode => returncode =? 0
       | ProbeFails _ => false
       end
  else false.

(** The parsed command line. *)
Record Args : Type := mkArgs {
  service : string;
  ip_list : string;
  timeout : Z;
  bot_token : option string;
  chat_id : option string;
  max_workers : Z
}.

(** The texts handed to [send_telegram_message]. *)
Inductive Message : Type :=
| ScanStarted (service : string) (total : Z) (ports start : string)
| ScanCompleted (service : string) (total open verified : Z)
                (finish : string) (listing : string) (more : option Z)
| VerifiedList (file_content : string).

Record World : Type := mkWorld {
  outbox : list Message;             (* requests.post calls, oldest first *)
  up_ips : option (list string);     (* lines of up_ips.txt, once written *)
  scan_results : option (Z * Z * Z * list string)
                                     (* the counts and list of scan_results.json *)
}.

Definition world0 : World :=
  {| outbox := []; up_ips := None; scan_results := None |}.

Definition post (m : Message) (w : World) : World :=
  mkWorld (outbox w ++ [m]) (up_ips w) (scan_results w).

(** Python truth of an optional string argument. *)
Definition given (o : option string) : bool :=
  match o with
  | Some s => negb (String.eqb s "")
  | None => false
  end.

(** [send_telegram_message] *)
Definition send_telegram_message (bot_token chat_id : option string)
           (message : Message) : Py World unit :=
  if negb (given bot_token) || negb (given chat_id) then ret tt
  else try_except (modify (post message)) (fun _ => true) (fun _ => ret tt).

(** What [main] finds outside the process. *)
Record Env : Type := mkEnv {
  parsed : option Args;                    (* None: argparse rejects argv *)
  read_text : string -> Exn + string;      (* open(path).read() *)
  scan : ScanRun;
  probe : string -> Z -> ProbeRun;
  completion : list Candidate -> list Candidate;
                                           (* as_completed: the same futures,
                                              in the order they finish *)
  started : string;
  finished : string;
  writable : bool
}.

(** The verification loop: the addresses whose probe succeeds, in the
    order the futures complete. *)
Definition verify_all (env : Env) (a : Args) (cands : list Candidate)
  : list string :=
  map cand_ip
      (filter (fun c => verify_service (probe env (cand_ip c) (cand_port c))
                                       (service a))
              (completion env cands)).

(** [verified_ips[:20]] joined, and the suffix added when more exist. *)
Definition listing_of (verified_ips : list string) : string :=
  join NL (firstn 20 verified_ips).

Definition more_of (verified_ips : list string) : option Z :=
  if 20 <? Z.of_nat (length verified_ips)
  then Some (Z.of_nat (length verified_ips) - 20)
  else None.

Definition results_msg (a : Args) (n_ips n_open : Z) (finish : string)
           (verified_ips : list string) : Message :=
  ScanCompleted (upper (service a)) n_ips n_open
                (Z.of_nat (length verified_ips)) finish
                (listing_of verified_ips) (more_of verified_ips).

(** The notifications after the scan: the summary, then the whole list
    when it is non-empty and its text is shorter than 4000 characters. *)
Definition report (a : Args) (n_ips n_open : Z) (finish : string)
           (verified_ips : list string) : Py World unit :=
  send_telegram_message (bot_token a) (chat_id a)
                        (results_msg a n_ips n_open finish verified_ips) ;;
  match verified_ips with
  | [] => ret tt
  | _ =>
      let file_content := join NL verified_ips in
      if Z.of_nat (String.length file_content) <? 4000
      then send_telegram_message (bot_token a) (chat_id a)
                                 (VerifiedList file_content)
      else ret tt
  end.

(** [ThreadPoolExecutor(max_workers=n)]: the constructor raises
    [ValueError] unless [n] is positive. *)
Definition executor (n : Z) : Py World unit :=
  if n <=? 0 then raise ValueError else ret tt.

(** [main] from the start notification on.  The pool is built after the
    scan and before anything is verified or written. *)
Definition session (env : Env) (a : Args) (ips : list string)
  : Py World unit :=
  let ports := if String.eqb (lower (service a)) "ssh" then "22" else "3389" in
  send_telegram_message (bot_token a) (chat_id a)
    (ScanStarted (upper (service a)) (Z.of_nat (length ips)) ports
                 (started env)) ;;
  let masscan_results := masscan_ips (scan env) in
  executor (max_workers a) ;;
  let verified_ips := verify_all env a masscan_results in
  (if writable env then
     modify (fun w => mkWorld (outbox w) (Some verified_ips)
                        (Some (Z.of_nat (length ips),
                               Z.of_nat (length masscan_results),
                               Z.of_nat (length verified_ips),
                               verified_ips)))
   else raise OSError) ;;
  report a (Z.of_nat (length ips)) (Z.of_nat (length masscan_results))
         (finished env) verified_ips.

Definition main (env : Env) (w : World) : Termination * World :=
  match parsed env with
  | None => (SysExit 2, w)
  | Some a =>
      match read_text env (ip_list a) with
      | inl FileNotFoundError => (Completed, w)      (* print; return *)
      | inl e => (Uncaught e, w)
      | inr content =>
          match session env a (stripped_lines content) w with
          | Return _ w' => (Completed, w')
          | Raise e w' => (Uncaught e, w')
          end
      end
  end.

End Scan.

(** * Views of the brute-force driver used in the statements *)

Module BruteViews.

Import Text Brute.

(** The world after [send_telegram_message m]. *)
Definition notify (m : Message) (w : World) : World :=
  if String.eqb (bot_token (CONFIG w)) "YOUR_TELEGRAM_BOT_TOKEN" then w
  else post m w.

(** ** The credentials of a line, as a function of the line alone *)

Definition after (key : string) (offset : nat) (parts : list string)
  : option string :=
  match index key parts with
  | Some i => nth_error parts (i + offset)
  | None => None
  end.

Definition credentials (line : string) : option (string * string) :=
  let parts := split_ws line in
  if has_login_tokens line then
    match after "login:" 1 parts, after "password:" 1 parts with
    | Some u, Some p => Some (u, p)
    | _, _ => None
    end
  else
    match after "[ssh]" 3 parts, after "[ssh]" 5 parts with
    | Some u, Some p => Some (u, p)
    | _, _ => None
    end.

(** The world after one successful extraction. *)
Definition record (now service target : string) (w : World)
           (up : string * string) : World :=
  let r := mkLogin service target (fst up) (snd up) now in
  notify (LoginAlert r) (with_status incr_good (append_success r w)).

(** The credentials found in a list of lines, in order. *)
Definition found_in (lines : list string) : list (string * string) :=
  flat_map (fun line => if is_success_line line
                        then match credentials line with
                             | Some up => [up]
                             | None => []
                             end
                        else [])
           lines.

Definition found (output : string) : list (string * string) :=
  found_in (split LF output).

(** The world after the [try]/[except] part of [brute_force_service]. *)
Definition settled (run : ToolRun) (now service target : string)
           (cmd : list string) (w : World) : World :=
  match proc run with
  | SpawnFails _ => with_status incr_na w
  | TimesOut =>
      with_status incr_na (log (Killed cmd) (log (Spawned cmd) w))
  | Exits _ =>
      let w1 := log (Spawned cmd) w in
      match file run with
      | Absent => with_status incr_bad w1
      | Holds content =>
          if String.eqb content "" then with_status incr_bad w1
          else fold_left (record now service target) (found content) w1
      | Unreadable _ => with_status incr_na w1
      end
  end.

(** The world after the [finally] block. *)
Definition tidied (run : ToolRun) (output_file : string) (w : World) : World :=
  let w1 := with_status incr_tried w in
  if file_exists (file run) then log (Removed output_file) w1 else w1.

(** The four per-task counters. *)
Definition counters (w : World) : Z * Z * Z * Z :=
  (tried (STATUS w), good (STATUS w), bad (STATUS w), na (STATUS w)).

(** The balance the progress report relies on. *)
Definition balanced (w : World) : Prop :=
  tried (STATUS w) = good (STATUS w) + bad (STATUS w) + na (STATUS w).

(** The world when the pool starts: the total set, the start notice sent. *)
Definition opened (env : Env) (service username password_list content : string)
           (w : World) : World :=
  let n := Z.of_nat (length (stripped_lines content)) in
  notify (AttackStarted service n username password_list (started env))
         (with_status (set_total n) w).

(** The world after the final report, from the world the pool left. *)
Definition closed (env : Env) (w : World) : World :=
  let w1 := with_status (set_running false) w in
  notify (final_msg (finished env - start_time (STATUS w1))%Q w1) w1.

(** The last step of [main]: the results file. *)
Definition saved (env : Env) (w : World) : Outcome World unit :=
  if writable env
  then Return tt (log (Written ("bruteforce_results_" ++ stamp env ++ ".json")) w)
  else Raise OSError w.

End BruteViews.

(** * Concrete inputs of the brute-force driver *)

Module BruteCases.

Import Text Brute.

(** The header line the tool writes to its output file on every run. *)
Definition header : string :=
  "# Hydra v9.1 run at 2024-01-01 00:00:00 on 10.0.0.1 ssh (hydra -l root -P pw.txt -t 2 -v -f -o out ssh://10.0.0.1)".

Definition login_line : string :=
  "[22][ssh] host: 10.0.0.1   login: root   password: toor".

(** An output file of a run that found nothing, and of one that did. *)
Definition unmarked_output : string := header ++ NL.
Definition marked_output : string := header ++ NL ++ login_line ++ NL.

Definition unmarked_run : ToolRun := mkRun (Exits 0) (Holds unmarked_output).

(** The shared state once [main] has set the total to [n]. *)
Definition ready (n : Z) : World := with_status (set_total n) (world0 0).

(** The same with a bot token filled in. *)
Definition with_token (w : World) : World :=
  let c := CONFIG w in
  mkWorld (STATUS w) (RESULTS w)
          (mkConfig "123456:token" "42" (max_threads c) (timeout_per_host c)
                    (hydra c) (ncrack c))
          (outbox w) (syslog w).

(** A command line and file system on which every check of [main] passes;
    [targets] is the text of the targets file. *)
Definition env_with (targets : string) (runs : nat -> ToolRun) : Env :=
  {| argv := ["bruteforcer.py"; "ssh"; "targets.txt"; "root"; "pw.txt"];
     isfile := fun _ => true;
     which_hydra := (0, "/usr/bin/hydra");
     read_text := fun _ => inr targets;
     tool := runs;
     clock := fun _ => "2024-01-01T00:00:01";
     started := "2024-01-01 00:00:00";
     finished := 5%Q;
     stamp := "20240101_000005";
     writable := true |}.

End BruteCases.

(** * Views and concrete inputs of the scan driver *)

Module ScanViews.

Import Text Scan.

(** The report lists port [n] as open on address [a]. *)
Definition listed (report : list Item) (a : string) (n : Z) : Prop :=
  exists item ps,
    In item report /\ ip item = Some a /\ ports item = Some ps /\
    In (mkPort (Some n)) ps.

(** The pair is among the candidates handed to the verification stage. *)
Definition surfaced (results : list Candidate) (a : string) (n : Z) : Prop :=
  In (mkCandidate a n "open") results.

(** The entry has both keys the loop looks for. *)
Definition has_both (item : Item) : bool :=
  match ip item, ports item with
  | Some _, Some _ => true
  | _, _ => false
  end.

(** The candidate an entry gives rise to: its address with the first
    element of its port list. *)
Definition first_candidate (item : Item) : option Candidate :=
  match ip item, ports item with
  | Some a, Some (p :: _) =>
      match port p with
      | Some n => Some (mkCandidate a n "open")
      | None => None
      end
  | _, _ => None
  end.

(** An entry on which the loop body does not raise: with both keys present
    the port list is non-empty and its first element has a ['port']. *)
Definition well_formed (item : Item) : bool :=
  match first_candidate item with
  | Some _ => true
  | None => negb (has_both item)
  end.

Definition candidates_of (report : list Item) : list Candidate :=
  flat_map (fun item => match first_candidate item with
                        | Some c => [c]
                        | None => []
                        end)
           report.

End ScanViews.

Module ScanCases.

Import Text Scan.

(** One address reported with two open ports. *)
Definition two_port_report : list Item :=
  [mkItem (Some "10.0.0.1") (Some [mkPort (Some 22); mkPort (Some 3389)])].

Definition ips21 : list string :=
  ["10.0.0.1"; "10.0.0.2"; "10.0.0.3"; "10.0.0.4"; "10.0.0.5"; "10.0.0.6";
   "10.0.0.7"; "10.0.0.8"; "10.0.0.9"; "10.0.0.10"; "10.0.0.11"; "10.0.0.12";
   "10.0.0.13"; "10.0.0.14"; "10.0.0.15"; "10.0.0.16"; "10.0.0.17";
   "10.0.0.18"; "10.0.0.19"; "10.0.0.20"; "10.0.0.21"].

Definition args_ssh : Args :=
  {| service := "ssh"; ip_list := "ips.txt"; timeout := 2;
     bot_token := Some "123456:token"; chat_id := Some "42";
     max_workers := 50 |}.

(** A run in which the IP list file does not exist. *)
Definition env_missing_list : Env :=
  {| parsed := Some args_ssh;
     read_text := fun _ => inl FileNotFoundError;
     scan := ScanExits 0 (Some []);
     probe := fun _ _ => ProbeExits 0;
     completion := fun l => l;
     started := "2024-01-01 00:00:00";
     finished := "2024-01-01 00:00:05";
     writable := true |}.

(** A run in which the scan reports port 22 open on every address of
    [ips21] and every probe succeeds. *)
Definition env_all_up : Env :=
  {| parsed := Some args_ssh;
     read_text := fun _ => inr (join NL ips21);
     scan := ScanExits 0 (Some (map (fun a => mkItem (Some a)
                                                     (Some [mkPort (Some 22)]))
                                    ips21));
     probe := fun _ _ => ProbeExits 0;
     completion := fun l => l;
     started := "2024-01-01 00:00:00";
     finished := "2024-01-01 00:00:05";
     writable := true |}.

End ScanCases.

(** * Views and concrete inputs of the two entry points *)

Module EntryViews.

Import Text.

(** Every check [practice.py] makes before it reads the targets passes. *)
Definition brute_inputs_ok (env : Brute.Env) (w : Brute.World) : bool :=
  (5 <=? Z.of_nat (length (Brute.argv env))) &&
  Brute.isfile env (nth 2 (Brute.argv env) "") &&
  Brute.isfile env (nth 4 (Brute.argv env) "") &&
  (Brute.isfile env (Brute.hydra (Brute.CONFIG w)) ||
   (fst (Brute.which_hydra env) =? 0)).

(** The world after [send_telegram_message] of [practice-3.py]. *)
Definition scan_notify (a : Scan.Args) (m : Scan.Message) (w : Scan.World)
  : Scan.World :=
  if negb (Scan.given (Scan.bot_token a)) || negb (Scan.given (Scan.chat_id a))
  then w else Scan.post m w.

(** A targets file naming the 21 addresses of [ips21], and a tool that
    finds the same login on each. *)
Definition env21 : Brute.Env :=
  BruteCases.env_with
    (join NL ScanCases.ips21)
    (fun _ => Brute.mkRun (Brute.Exits 0)
                          (Brute.Holds BruteCases.marked_output)).

(** The same command line with no targets file on disk. *)
Definition env_no_targets : Brute.Env :=
  Brute.mkEnv (Brute.argv env21) (fun _ => false) (Brute.which_hydra env21)
              (fun _ => inl FileNotFoundError) (Brute.tool env21)
              (Brute.clock env21) (Brute.started env21)
              (Brute.finished env21) (Brute.stamp env21) true.

(** The message a world ends with. *)
Definition last_posted (w : Brute.World) : option Brute.Message :=
  nth_error (rev (Brute.outbox w)) 0.

(** The number of logins a final report lists. *)
Definition logins_listed (m : option Brute.Message) : Z :=
  match m with
  | Some (Brute.AttackCompleted _ _ _ _ _ logins _) =>
      Z.of_nat (length logins)
  | _ => 0
  end.

(** The run of [env_all_up] started with [--max-workers 0]. *)
Definition env_no_workers : Scan.Env :=
  Scan.mkEnv (Some (Scan.mkArgs "ssh" "ips.txt" 2 (Some "123456:token")
                                (Some "42") 0))
             (Scan.read_text ScanCases.env_all_up)
             (Scan.scan ScanCases.env_all_up)
             (Scan.probe ScanCases.env_all_up)
             (Scan.completion ScanCases.env_all_up)
             (Scan.started ScanCases.env_all_up)
             (Scan.finished ScanCases.env_all_up)
             true.

End EntryViews.

(** * Further views of the two drivers *)

Module MoreViews.

Import Text Brute BruteViews.

(** How the runner classes a tool run. *)
Inductive Verdict : Type :=
| Indeterminate                 (* timeout, failed spawn, failed read *)
| Failed                        (* output file missing or empty *)
| Analysed (content : string).  (* output file read and scanned *)

Definition verdict (run : ToolRun) : Verdict :=
  match proc run with
  | SpawnFails _ => Indeterminate
  | TimesOut => Indeterminate
  | Exits _ =>
      match file run with
      | Absent => Failed
      | Holds content =>
          if String.eqb content "" then Failed else Analysed content
      | Unreadable _ => Indeterminate
      end
  end.

(** What a run adds to each counter. *)
Definition na_of (run : ToolRun) : Z :=
  match verdict run with Indeterminate => 1 | _ => 0 end.

Definition bad_of (run : ToolRun) : Z :=
  match verdict run with Failed => 1 | _ => 0 end.

Definition good_of (run : ToolRun) : Z :=
  match verdict run with
  | Analysed content => Z.of_nat (length (found content))
  | _ => 0
  end.

Definition sum_over (f : ToolRun -> Z) (tasks : list Task) : Z :=
  fold_right (fun t acc => f (task_run t) + acc) 0 tasks.

(** The operating-system events of one task, in order. *)
Definition events_of (run : ToolRun) (cmd : list string) (path : string)
  : list SysEvent :=
  (match proc run with
   | SpawnFails _ => []
   | TimesOut => [Spawned cmd; Killed cmd]
   | Exits _ => [Spawned cmd]
   end ++ if file_exists (file run) then [Removed path] else [])%list.

(** [STATUS['good']] counts the entries of [RESULTS['success']]. *)
Definition logged (w : World) : Prop :=
  good (STATUS w) = Z.of_nat (length (success (RESULTS w))).

(** No token has been filled in. *)
Definition unconfigured (w : World) : bool :=
  String.eqb (bot_token (CONFIG w)) "YOUR_TELEGRAM_BOT_TOKEN".

(** The entries a task adds to [RESULTS['success']]. *)
Definition logins_of (service : string) (t : Task) : list Login :=
  match verdict (task_run t) with
  | Analysed content =>
      map (fun up => mkLogin service (task_target t) (fst up) (snd up)
                             (task_now t))
          (found content)
  | _ => []
  end.

(** The operating-system events a task gives rise to under a
    configuration: none for an unsupported service. *)
Definition trace_of (c : Config) (service username password_list : string)
           (t : Task) : list SysEvent :=
  match command c service (task_target t) username password_list
                (output_path service (task_target t)) with
  | Some cmd =>
      events_of (task_run t) cmd (output_path service (task_target t))
  | None => []
  end.

(** The processes a trace spawned. *)
Definition spawned (trace : list SysEvent) : list SysEvent :=
  filter (fun e => match e with Spawned _ => true | _ => false end) trace.

(** Every character of the text is ASCII; on such texts [lower] and
    [upper] are Python's [str.lower] and [str.upper]. *)
Definition ascii_only (s : string) : bool :=
  forallb (fun c => (nat_of_ascii c <? 128)%nat) (list_ascii_of_string s).

(** The messages of the status monitor, which runs beside the session. *)
Definition is_progress (m : Message) : bool :=
  match m with
  | StatusUpdate _ _ _ _ _ _ _ _ => true
  | _ => false
  end.

(** What is left of an outbox without the monitor's messages. *)
Definition own_posts (posts : list Message) : list Message :=
  filter (fun m => negb (is_progress m)) posts.

End MoreViews.

(** * Further views of the scan driver *)

Module ScanMoreViews.

Import Text Scan ScanViews.

(** The entries the loop gets through: those before the first entry on
    which its body raises. *)
Fixpoint readable (report : list Item) : list Item :=
  match report with
  | [] => []
  | item :: rest =>
      if well_formed item then item :: readable rest else []
  end.

(** The scan came back with status 0 and a report that parses. *)
Definition reported (run : ScanRun) : option (list Item) :=
  match run with
  | ScanExits 0 (Some report) => Some report
  | _ => None
  end.


(** Both notifier credentials were given. *)
Definition credentials_given (a : Args) : bool :=
  given (bot_token a) && given (chat_id a).

(** The whole list goes out in a second message. *)
Definition follow_up (verified_ips : list string) : bool :=
  match verified_ips with
  | [] => false
  | _ => Z.of_nat (String.length (join NL verified_ips)) <? 4000
  end.

(** The port scanned for a service. *)
Definition port_of (a : Args) : string :=
  if String.eqb (lower (service a)) "ssh" then "22" else "3389".

End ScanMoreViews.

(** * Properties of the brute-force driver *)

Module BruteFacts.

Import Text Brute BruteViews BruteCases.
Local Open Scope py_scope.

(** ** What one notification does *)

Lemma send_telegram_message_eq (m : Message) (w : World) :
  send_telegram_message m w = Return tt (notify m w).
Proof.
  unfold send_telegram_message, notify, bind, gets, try_except, modify, ret.
  destruct (String.eqb (bot_token (CONFIG w)) "YOUR_TELEGRAM_BOT_TOKEN");
    reflexivity.
Qed.

Lemma notify_STATUS m w : STATUS (notify m w) = STATUS w.
Proof. unfold notify; destruct (String.eqb _ _); reflexivity. Qed.

Lemma notify_RESULTS m w : RESULTS (notify m w) = RESULTS w.
Proof. unfold notify; destruct (String.eqb _ _); reflexivity. Qed.

Lemma notify_CONFIG m w : CONFIG (notify m w) = CONFIG w.
Proof. unfold notify; destruct (String.eqb _ _); reflexivity. Qed.

Lemma notify_syslog m w : syslog (notify m w) = syslog w.
Proof. unfold notify; destruct (String.eqb _ _); reflexivity. Qed.

(** [extract] never touches the world, and fails only with the two
    exceptions that [record_line] handles. *)
Lemma extract_eq (line : string) (w : World) :
  match credentials line with
  | Some up => extract line w = Return up w
  | None => exists e, parse_errors e = true /\ extract line w = Raise e w
  end.
Proof.
  unfold credentials, extract, after, index_of, item, bind, lookup_or.
  destruct (has_login_tokens line).
  - destruct (index "login:" (split_ws line)) as [i|]; simpl;
      [|exists ValueError; split; reflexivity].
    destruct (nth_error (split_ws line) (i + 1)) as [u|]; simpl.
    + destruct (index "password:" (split_ws line)) as [j|]; simpl;
        [|exists ValueError; split; reflexivity].
      destruct (nth_error (split_ws line) (j + 1)) as [p|]; simpl;
        [reflexivity|exists IndexError; split; reflexivity].
    + destruct (index "password:" (split_ws line)) as [j|]; simpl;
        [|exists IndexError; split; reflexivity].
      destruct (nth_error (split_ws line) (j + 1)) as [p|]; simpl;
        exists IndexError; split; reflexivity.
  - destruct (index "[ssh]" (split_ws line)) as [i|]; simpl;
      [|exists ValueError; split; reflexivity].
    destruct (nth_error (split_ws line) (i + 3)) as [u|]; simpl.
    + destruct (nth_error (split_ws line) (i + 5)) as [p|]; simpl;
        [reflexivity|exists IndexError; split; reflexivity].
    + destruct (nth_error (split_ws line) (i + 5)) as [p|]; simpl;
        exists IndexError; split; reflexivity.
Qed.

Lemma record_line_eq (now service target line : string) (w : World) :
  record_line now service target line w =
  Return tt (match credentials line with
             | Some up => record now service target w up
             | None => w
             end).
Proof.
  unfold record_line, try_except, bind.
  pose proof (extract_eq line w) as H.
  destruct (credentials line) as [up|].
  - rewrite H. unfold modify. rewrite send_telegram_message_eq. reflexivity.
  - destruct H as (e & He & ->). rewrite He. reflexivity.
Qed.

Lemma scan_lines_eq (now service target : string) (lines : list string) :
  forall w,
    for_each lines (fun line => if is_success_line line
                                then record_line now service target line
                                else ret tt) w
    = Return tt (fold_left (record now service target) (found_in lines) w).
Proof.
  induction lines as [|line rest IH]; intros w; simpl.
  - reflexivity.
  - unfold bind. destruct (is_success_line line).
    + rewrite record_line_eq. rewrite IH.
      destruct (credentials line); reflexivity.
    + unfold ret. rewrite IH. reflexivity.
Qed.

(** [analyze_hydra_output] returns no value and never raises; what it does
    to the world is [record], once per credential found. *)
Lemma analyze_hydra_output_eq (now output service target : string) (w : World) :
  analyze_hydra_output now output service target w
  = Return tt (fold_left (record now service target) (found output) w).
Proof. apply scan_lines_eq. Qed.

Section Recorded.

Variables now service target : string.

Lemma record_STATUS (w : World) (up : string * string) :
  STATUS (record now service target w up) = incr_good (STATUS w).
Proof. unfold record. now rewrite notify_STATUS. Qed.

Lemma recorded_STATUS (ups : list (string * string)) : forall w,
  let w' := fold_left (record now service target) ups w in
  total (STATUS w') = total (STATUS w) /\
  tried (STATUS w') = tried (STATUS w) /\
  good (STATUS w') = good (STATUS w) + Z.of_nat (length ups) /\
  bad (STATUS w') = bad (STATUS w) /\
  na (STATUS w') = na (STATUS w).
Proof.
  induction ups as [|up rest IH]; intros w.
  - simpl. repeat split; lia.
  - cbn [fold_left length]. rewrite Nat2Z.inj_succ.
    destruct (IH (record now service target w up))
      as (Ht & Hd & Hg & Hb & Hn).
    rewrite record_STATUS in Ht, Hd, Hg, Hb, Hn.
    cbn [incr_good total tried good bad na] in *.
    repeat split; try assumption. lia.
Qed.

Lemma recorded_success (ups : list (string * string)) : forall w,
  success (RESULTS (fold_left (record now service target) ups w))
  = (success (RESULTS w)
     ++ map (fun up => mkLogin service target (fst up) (snd up) now) ups)%list.
Proof.
  induction ups as [|up rest IH]; intros w; simpl.
  - now rewrite app_nil_r.
  - rewrite IH. unfold record. rewrite notify_RESULTS. simpl.
    now rewrite <- app_assoc.
Qed.

Lemma recorded_CONFIG (ups : list (string * string)) : forall w,
  CONFIG (fold_left (record now service target) ups w) = CONFIG w.
Proof.
  induction ups as [|up rest IH]; intros w; simpl; [reflexivity|].
  rewrite IH. unfold record. now rewrite notify_CONFIG.
Qed.

Lemma recorded_syslog (ups : list (string * string)) : forall w,
  syslog (fold_left (record now service target) ups w) = syslog w.
Proof.
  induction ups as [|up rest IH]; intros w; simpl; [reflexivity|].
  rewrite IH. unfold record. now rewrite notify_syslog.
Qed.

(** One alert per credential when a token is configured, none otherwise. *)
Lemma recorded_outbox (ups : list (string * string)) : forall w,
  outbox (fold_left (record now service target) ups w)
  = (outbox w ++
     if String.eqb (bot_token (CONFIG w)) "YOUR_TELEGRAM_BOT_TOKEN" then []
     else map (fun up => LoginAlert
                           (mkLogin service target (fst up) (snd up) now))
              ups)%list.
Proof.
  induction ups as [|up rest IH]; intros w; simpl.
  - destruct (String.eqb _ _); now rewrite app_nil_r.
  - rewrite IH. unfold record, notify. simpl.
    destruct (String.eqb (bot_token (CONFIG w)) _) eqn:E; simpl.
    + rewrite E. reflexivity.
    + rewrite E. now rewrite <- app_assoc.
Qed.

End Recorded.

(** ** The task runner *)

Lemma command_supported c service target username password_list output_file :
  supported service = true ->
  exists cmd,
    command c service target username password_list output_file = Some cmd.
Proof.
  unfold supported, command. intros H.
  destruct (String.eqb (lower service) "ssh"); [eauto|].
  destruct (String.eqb (lower service) "rdp"); [eauto|discriminate].
Qed.

Lemma command_unsupported c service target username password_list output_file :
  supported service = false ->
  command c service target username password_list output_file = None.
Proof.
  unfold supported, command. intros H.
  destruct (String.eqb (lower service) "ssh"); [discriminate|].
  destruct (String.eqb (lower service) "rdp"); [discriminate|reflexivity].
Qed.

Lemma fault_is_not_timeout (f : Fault) : exn_eqb (exn_of f) TimeoutExpired = false.
Proof. destruct f; reflexivity. Qed.

Lemma cleanup_eq run output_file w :
  cleanup run output_file w = Return tt (tidied run output_file w).
Proof.
  unfold cleanup, tidied, bind, modify, try_except, ret.
  destruct (file_exists (file run)); reflexivity.
Qed.

(** Whatever the tool and the file system do, the guarded part of the
    runner ends normally. *)
Lemma attempt_recovered run now service target cmd w :
  try_except (attempt run now service target cmd) (fun _ => true)
             (recover cmd) w
  = Return tt (settled run now service target cmd w).
Proof.
  unfold try_except, attempt, settled, Popen, communicate, bind, recover.
  destruct (proc run) as [f| |rc]; simpl.
  - rewrite fault_is_not_timeout. reflexivity.
  - reflexivity.
  - destruct (file run) as [|content|f]; simpl.
    + reflexivity.
    + destruct (String.eqb content ""); simpl.
      * reflexivity.
      * rewrite analyze_hydra_output_eq. reflexivity.
    + rewrite fault_is_not_timeout. reflexivity.
Qed.

Lemma brute_force_service_eq run now service target username password_list cmd w :
  command (CONFIG w) service target username password_list
          (output_path service target) = Some cmd ->
  brute_force_service run now service target username password_list w
  = Return tt (tidied run (output_path service target)
                      (settled run now service target cmd w)).
Proof.
  intros Hcmd. unfold brute_force_service, bind, gets. rewrite Hcmd.
  unfold try_finally. rewrite attempt_recovered, cleanup_eq. reflexivity.
Qed.

Lemma brute_force_service_unsupported run now service target username password_list w :
  supported service = false ->
  brute_force_service run now service target username password_list w
  = Return tt w.
Proof.
  intros H. unfold brute_force_service, bind, gets.
  now rewrite command_unsupported.
Qed.

(** No exception leaves the runner. *)
Lemma brute_force_service_returns run now service target username password_list w :
  exists w',
    brute_force_service run now service target username password_list w
    = Return tt w'.
Proof.
  destruct (supported service) eqn:Hs.
  - destruct (command_supported (CONFIG w) service target username
                password_list (output_path service target) Hs) as [cmd Hcmd].
    eexists. apply (brute_force_service_eq _ _ _ _ _ _ _ _ Hcmd).
  - eexists. now apply brute_force_service_unsupported.
Qed.

Lemma tidied_counters run output_file w :
  counters (tidied run output_file w)
  = (tried (STATUS w) + 1, good (STATUS w), bad (STATUS w), na (STATUS w)).
Proof.
  unfold tidied, counters. destruct (file_exists (file run)); reflexivity.
Qed.

Lemma tidied_total run output_file w :
  total (STATUS (tidied run output_file w)) = total (STATUS w).
Proof. unfold tidied. destruct (file_exists (file run)); reflexivity. Qed.

Lemma tidied_RESULTS run output_file w :
  RESULTS (tidied run output_file w) = RESULTS w.
Proof. unfold tidied. destruct (file_exists (file run)); reflexivity. Qed.

Lemma tidied_CONFIG run output_file w :
  CONFIG (tidied run output_file w) = CONFIG w.
Proof. unfold tidied. destruct (file_exists (file run)); reflexivity. Qed.

Lemma tidied_outbox run output_file w :
  outbox (tidied run output_file w) = outbox w.
Proof. unfold tidied. destruct (file_exists (file run)); reflexivity. Qed.

(** The guarded part never counts a task as tried, never changes the total
    or the configuration, and never lowers a counter. *)
Lemma settled_frame run now service target cmd w :
  let w' := settled run now service target cmd w in
  total (STATUS w') = total (STATUS w) /\
  tried (STATUS w') = tried (STATUS w) /\
  good (STATUS w) <= good (STATUS w') /\
  bad (STATUS w) <= bad (STATUS w') /\
  na (STATUS w) <= na (STATUS w') /\
  CONFIG w' = CONFIG w.
Proof.
  unfold settled.
  destruct (proc run) as [f| |rc]; simpl; try (repeat split; lia).
  destruct (file run) as [|content|f]; simpl; try (repeat split; lia).
  destruct (String.eqb content ""); simpl; try (repeat split; lia).
  destruct (recorded_STATUS now service target (found content)
              (log (Spawned cmd) w)) as (Ht & Hd & Hg & Hb & Hn).
  rewrite recorded_CONFIG. simpl in *. repeat split; lia.
Qed.

(** ** The pool *)

Lemma submit_eq (f : Py World unit) (w : World) :
  submit f w = Return tt (world_of (f w)).
Proof. reflexivity. Qed.

(** With a supported service every task of a schedule is run to its end:
    the batch returns and [tried] has grown by the number of tasks, while
    [total] stays as it was set. *)
Lemma dispatch_supported service username password_list (tasks : list Task) :
  supported service = true ->
  forall w, exists w',
    dispatch service username password_list tasks w = Return tt w' /\
    tried (STATUS w') = tried (STATUS w) + Z.of_nat (length tasks) /\
    total (STATUS w') = total (STATUS w) /\
    CONFIG w' = CONFIG w.
Proof.
  intros Hs. unfold dispatch.
  induction tasks as [|t rest IH]; intros w.
  - exists w. simpl. repeat split; lia.
  - cbn [for_each length]. unfold bind. rewrite submit_eq.
    destruct (command_supported (CONFIG w) service (task_target t) username
                password_list (output_path service (task_target t)) Hs)
      as [cmd Hcmd].
    rewrite (brute_force_service_eq _ _ _ _ _ _ _ _ Hcmd). cbn [world_of].
    set (w1 := tidied _ _ _).
    destruct (IH w1) as (w' & Hrun & Htried & Htotal & Hcfg).
    exists w'. rewrite Hrun, Htried, Htotal, Hcfg. subst w1.
    pose proof (tidied_counters (task_run t)
                  (output_path service (task_target t))
                  (settled (task_run t) (task_now t) service
                           (task_target t) cmd w)) as Hc.
    unfold counters in Hc. injection Hc as Hc _ _ _.
    rewrite Hc, tidied_total, tidied_CONFIG.
    destruct (settled_frame (task_run t) (task_now t) service
                (task_target t) cmd w) as (Ht & Hd & _ & _ & _ & Hk).
    rewrite Ht, Hd, Hk, Nat2Z.inj_succ. repeat split; lia.
Qed.

(** With any other service the batch leaves the world as it found it. *)
Lemma dispatch_unsupported service username password_list (tasks : list Task) :
  supported service = false ->
  forall w, dispatch service username password_list tasks w = Return tt w.
Proof.
  intros Hs. unfold dispatch.
  induction tasks as [|t rest IH]; intros w.
  - reflexivity.
  - cbn [for_each]. unfold bind. rewrite submit_eq.
    rewrite brute_force_service_unsupported by assumption.
    cbn [world_of]. apply IH.
Qed.

Lemma schedule_from_length env (targets : list string) :
  forall n, length (schedule_from env n targets) = length targets.
Proof.
  induction targets as [|t rest IH]; intros n; simpl; [reflexivity|].
  now rewrite IH.
Qed.

Lemma load_targets_eq content w :
  load_targets content w
  = Return (stripped_lines content)
           (with_status (set_total (Z.of_nat (length (stripped_lines content))))
                        w).
Proof. reflexivity. Qed.

(** ** The progress reporter *)

Lemma status_tick_zero_total (now : Q) (w : World) :
  total (STATUS w) = 0 ->
  status_tick now w = Raise ZeroDivisionError w.
Proof.
  intros H. unfold status_tick, bind, gets. rewrite H. reflexivity.
Qed.


(** ** Outputs without a credentials line *)

Lemma unmarked_output_changes_nothing now output service target w :
  found output = [] ->
  analyze_hydra_output now output service target w = Return tt w.
Proof. intros H. rewrite analyze_hydra_output_eq, H. reflexivity. Qed.

Lemma unmarked_lines_found_nothing (lines : list string) :
  forallb (fun line => negb (is_success_line line)) lines = true ->
  found_in lines = [].
Proof.
  induction lines as [|line rest IH]; simpl; [reflexivity|].
  intros H. apply andb_true_iff in H as [Hl Hr].
  destruct (is_success_line line); [discriminate|]. now apply IH.
Qed.

(** A matching line whose extraction fails is passed over and the loop goes
    on with the lines after it. *)
Lemma scan_continues_after_failed_extraction now service target line rest w :
  is_success_line line = true ->
  credentials line = None ->
  for_each (line :: rest)
           (fun l => if is_success_line l
                     then record_line now service target l else ret tt) w
  = for_each rest
             (fun l => if is_success_line l
                       then record_line now service target l else ret tt) w.
Proof.
  intros Hm Hc. rewrite !scan_lines_eq. simpl. now rewrite Hm, Hc.
Qed.

(** A non-empty output file without a credentials line: the task is counted
    as tried and as nothing else. *)
Lemma unmarked_output_counters run now service target username password_list rc content w :
  supported service = true ->
  proc run = Exits rc ->
  file run = Holds content ->
  content <> "" ->
  found content = [] ->
  counters (world_of (brute_force_service run now service target
                        username password_list w))
  = (tried (STATUS w) + 1, good (STATUS w), bad (STATUS w), na (STATUS w)).
Proof.
  intros Hs Hp Hf Hne Hnone.
  destruct (command_supported (CONFIG w) service target username
              password_list (output_path service target) Hs) as [cmd Hcmd].
  rewrite (brute_force_service_eq _ _ _ _ _ _ _ _ Hcmd). cbn [world_of].
  rewrite tidied_counters. unfold settled. rewrite Hp, Hf, Hnone.
  destruct (String.eqb_spec content ""); [contradiction|]. reflexivity.
Qed.

(** ** The session *)

Lemma dispatch_returns service username password_list (tasks : list Task) :
  forall w, exists w',
    dispatch service username password_list tasks w = Return tt w'.
Proof.
  unfold dispatch. induction tasks as [|t rest IH]; intros w.
  - exists w. reflexivity.
  - cbn [for_each]. unfold bind. rewrite submit_eq. apply IH.
Qed.

(** [session] in closed form, given the world the pool leaves. *)
Lemma session_eq env service username password_list content w w3 :
  dispatch service username password_list
           (schedule_from env 0 (stripped_lines content))
           (opened env service username password_list content w)
  = Return tt w3 ->
  session env service username password_list content w
  = saved env (closed env w3).
Proof.
  intros Hd. unfold session, bind. rewrite load_targets_eq.
  rewrite send_telegram_message_eq.
  unfold opened in Hd. cbv zeta in Hd. rewrite Hd.
  unfold modify at 1. unfold gets. rewrite send_telegram_message_eq.
  unfold saved, closed. destruct (writable env); reflexivity.
Qed.

Lemma opened_STATUS env service username password_list content w :
  STATUS (opened env service username password_list content w)
  = set_total (Z.of_nat (length (stripped_lines content))) (STATUS w).
Proof. unfold opened. cbv zeta. now rewrite notify_STATUS. Qed.

Lemma opened_RESULTS env service username password_list content w :
  RESULTS (opened env service username password_list content w) = RESULTS w.
Proof. unfold opened. cbv zeta. now rewrite notify_RESULTS. Qed.

Lemma opened_CONFIG env service username password_list content w :
  CONFIG (opened env service username password_list content w) = CONFIG w.
Proof. unfold opened. cbv zeta. now rewrite notify_CONFIG. Qed.

Lemma opened_syslog env service username password_list content w :
  syslog (opened env service username password_list content w) = syslog w.
Proof. unfold opened. cbv zeta. now rewrite notify_syslog. Qed.

Lemma closed_STATUS env w :
  STATUS (closed env w) = set_running false (STATUS w).
Proof. unfold closed. cbv zeta. now rewrite notify_STATUS. Qed.

Lemma closed_RESULTS env w : RESULTS (closed env w) = RESULTS w.
Proof. unfold closed. cbv zeta. now rewrite notify_RESULTS. Qed.

Lemma closed_syslog env w : syslog (closed env w) = syslog w.
Proof. unfold closed. cbv zeta. now rewrite notify_syslog. Qed.

Lemma saved_STATUS env w : STATUS (world_of (saved env w)) = STATUS w.
Proof. unfold saved. destruct (writable env); reflexivity. Qed.

Lemma saved_RESULTS env w : RESULTS (world_of (saved env w)) = RESULTS w.
Proof. unfold saved. destruct (writable env); reflexivity. Qed.

Lemma saved_outbox env w : outbox (world_of (saved env w)) = outbox w.
Proof. unfold saved. destruct (writable env); reflexivity. Qed.

Lemma saved_syslog env w (e : SysEvent) :
  In e (syslog (world_of (saved env w))) ->
  In e (syslog w) \/ exists path, e = Written path.
Proof.
  unfold saved. destruct (writable env); cbn [world_of syslog log].
  - intros H. apply in_app_or in H as [H|[H|[]]]; [now left|].
    right. eexists. symmetry. exact H.
  - now left.
Qed.

(** X25.  Each target adds at most one to [tried]: from a fresh start a whole
    session ends with [tried] equal to [total] for a supported service and
    at 0 otherwise, so [tried <= total] either way. *)
Lemma session_tried_le_total env service username password_list content w :
  tried (STATUS w) = 0 ->
  let w' := world_of (session env service username password_list content w) in
  total (STATUS w') = Z.of_nat (length (stripped_lines content)) /\
  tried (STATUS w')
  = (if supported service then total (STATUS w') else 0) /\
  tried (STATUS w') <= total (STATUS w').
Proof.
  intros Hz. cbv zeta.
  destruct (supported service) eqn:Hs.
  - destruct (dispatch_supported service username password_list
                (schedule_from env 0 (stripped_lines content)) Hs
                (opened env service username password_list content w))
      as (w3 & Hd & Htried & Htotal & _).
    rewrite (session_eq _ _ _ _ _ _ _ Hd).
    rewrite saved_STATUS, closed_STATUS.
    cbn [set_running tried total].
    rewrite Htried, Htotal, opened_STATUS, schedule_from_length.
    cbn [set_total tried total]. rewrite Hz. repeat split; lia.
  - rewrite (session_eq _ _ _ _ _ _ _
               (dispatch_unsupported service username password_list _ Hs _)).
    rewrite saved_STATUS, closed_STATUS, opened_STATUS.
    cbn [set_running set_total tried total]. rewrite Hz.
    repeat split; lia.
Qed.

(** ** The claims about the brute-force driver *)

(** C1 (the code departs from the claim).  The claim: after every completed
    task [tried = good + bad + na].  A task whose output file holds only the
    tool's header line is counted as tried and in no other counter, so the
    balance that held before the task is lost after it. *)
Theorem C1_unmarked_output_unbalances :
  let w0 := ready 1 in
  let w := world_of (brute_force_service unmarked_run "2024-01-01T00:00:01"
                       "ssh" "10.0.0.1" "root" "pw.txt" w0) in
  balanced w0 /\
  counters w = (1, 0, 0, 0) /\
  total (STATUS w) = 1 /\
  ~ balanced w.
Proof.
  cbv zeta. repeat split.
  unfold balanced. vm_compute. discriminate.
Qed.

(** C2.  When the tool run exceeds the per-task timeout, the runner ends
    normally with [na] one higher, [good], [bad] and the result log as they
    were, and the task counted as tried. *)
Theorem C2_timeout_is_indeterminate
        run now service target username password_list w :
  supported service = true ->
  proc run = TimesOut ->
  exists w',
    brute_force_service run now service target username password_list w
    = Return tt w' /\
    na (STATUS w') = na (STATUS w) + 1 /\
    good (STATUS w') = good (STATUS w) /\
    bad (STATUS w') = bad (STATUS w) /\
    tried (STATUS w') = tried (STATUS w) + 1 /\
    RESULTS w' = RESULTS w.
Proof.
  intros Hs Hp.
  destruct (command_supported (CONFIG w) service target username
              password_list (output_path service target) Hs) as [cmd Hcmd].
  eexists. split; [apply (brute_force_service_eq _ _ _ _ _ _ _ _ Hcmd)|].
  pose proof (tidied_counters run (output_path service target)
                (settled run now service target cmd w)) as Hc.
  unfold counters in Hc. injection Hc as Ht Hg Hb Hn.
  rewrite Ht, Hg, Hb, Hn, tidied_RESULTS.
  unfold settled. rewrite Hp. simpl. repeat split; reflexivity.
Qed.

Lemma C2_timeout_is_indeterminate_witness :
  exists w',
    brute_force_service (mkRun TimesOut (Holds marked_output))
                        "2024-01-01T00:00:01" "ssh" "10.0.0.1" "root" "pw.txt"
                        (ready 1)
    = Return tt w' /\
    na (STATUS w') = na (STATUS (ready 1)) + 1 /\
    good (STATUS w') = good (STATUS (ready 1)) /\
    bad (STATUS w') = bad (STATUS (ready 1)) /\
    tried (STATUS w') = tried (STATUS (ready 1)) + 1 /\
    RESULTS w' = RESULTS (ready 1).
Proof.
  apply (C2_timeout_is_indeterminate
           (mkRun TimesOut (Holds marked_output))); reflexivity.
Defined.

(** C3.  No exception leaves the runner, whatever the tool and the file
    system do; a failed spawn or a failed read of the output file is
    recorded as [na] and as nothing else; and a batch of any tasks is
    processed to its end, each task counted as tried. *)
Theorem C3_errors_are_contained service username password_list :
  supported service = true ->
  (forall run now target w, exists w',
      brute_force_service run now service target username password_list w
      = Return tt w') /\
  (forall run now target w f,
      proc run = SpawnFails f \/
      (exists rc, proc run = Exits rc /\ file run = Unreadable f) ->
      exists w',
        brute_force_service run now service target username password_list w
        = Return tt w' /\
        na (STATUS w') = na (STATUS w) + 1 /\
        good (STATUS w') = good (STATUS w) /\
        bad (STATUS w') = bad (STATUS w) /\
        tried (STATUS w') = tried (STATUS w) + 1 /\
        RESULTS w' = RESULTS w) /\
  (forall tasks w, exists w',
      dispatch service username password_list tasks w = Return tt w' /\
      tried (STATUS w') = tried (STATUS w) + Z.of_nat (length tasks)).
Proof.
  intros Hs. split; [|split].
  - intros. apply brute_force_service_returns.
  - intros run now target w f Hfault.
    destruct (command_supported (CONFIG w) service target username
                password_list (output_path service target) Hs) as [cmd Hcmd].
    eexists. split; [apply (brute_force_service_eq _ _ _ _ _ _ _ _ Hcmd)|].
    pose proof (tidied_counters run (output_path service target)
                  (settled run now service target cmd w)) as Hc.
    unfold counters in Hc. injection Hc as Ht Hg Hb Hn.
    rewrite Ht, Hg, Hb, Hn, tidied_RESULTS. unfold settled.
    destruct Hfault as [Hp|(rc & Hp & Hf)].
    + rewrite Hp. simpl. repeat split; reflexivity.
    + rewrite Hp, Hf. simpl. repeat split; reflexivity.
  - intros tasks w.
    destruct (dispatch_supported service username password_list tasks Hs w)
      as (w' & Hrun & Htried & _).
    exists w'. split; assumption.
Qed.

Lemma C3_errors_are_contained_witness :
  (exists w',
      brute_force_service (mkRun (SpawnFails NotFound) Absent) "t1"
                          "ssh" "10.0.0.1" "root" "pw.txt" (ready 3)
      = Return tt w' /\
      na (STATUS w') = na (STATUS (ready 3)) + 1 /\
      good (STATUS w') = good (STATUS (ready 3)) /\
      bad (STATUS w') = bad (STATUS (ready 3)) /\
      tried (STATUS w') = tried (STATUS (ready 3)) + 1 /\
      RESULTS w' = RESULTS (ready 3)) /\
  (exists w',
      dispatch "ssh" "root" "pw.txt"
               [mkTask (mkRun (SpawnFails NotFound) Absent) "t1" "10.0.0.1";
                mkTask (mkRun (Exits 0) (Unreadable Denied)) "t2" "10.0.0.2";
                mkTask (mkRun (Exits 0) (Holds marked_output)) "t3" "10.0.0.3"]
               (ready 3)
      = Return tt w' /\
      tried (STATUS w') = tried (STATUS (ready 3)) + 3).
Proof.
  destruct (C3_errors_are_contained "ssh" "root" "pw.txt" eq_refl)
    as (_ & Hfault & Hbatch).
  split.
  - apply (Hfault (mkRun (SpawnFails NotFound) Absent) "t1" "10.0.0.1"
                  (ready 3) NotFound).
    left. reflexivity.
  - exact (Hbatch
             [mkTask (mkRun (SpawnFails NotFound) Absent) "t1" "10.0.0.1";
              mkTask (mkRun (Exits 0) (Unreadable Denied)) "t2" "10.0.0.2";
              mkTask (mkRun (Exits 0) (Holds marked_output)) "t3" "10.0.0.3"]
             (ready 3)).
Defined.

(** C4 (the code departs from the claim).  The claim: an output in which no
    line has the success tokens is classified as a failure, [bad] going up
    by one.  On such an output [analyze_hydra_output] returns with the world
    untouched, and the runner that called it leaves [bad] at zero. *)
Theorem C4_unmarked_output_is_not_counted_bad :
  forallb (fun line => negb (is_success_line line))
          (split LF unmarked_output) = true /\
  analyze_hydra_output "2024-01-01T00:00:01" unmarked_output
                       "ssh" "10.0.0.1" (ready 1)
  = Return tt (ready 1) /\
  bad (STATUS (world_of (brute_force_service unmarked_run
                           "2024-01-01T00:00:01" "ssh" "10.0.0.1"
                           "root" "pw.txt" (ready 1)))) = 0.
Proof. repeat split. Qed.

(** C6 (the code departs from the claim).  The claim: the target list is
    checked to be non-empty before the reporter starts, so the completion
    ratio never divides by zero.  A targets file without a non-blank line
    passes every check of [main]; [total] is set to 0, the reporter's first
    pass raises [ZeroDivisionError] before it posts anything, and [main]
    runs on to a normal end. *)
Theorem C6_empty_target_list_divides_by_zero :
  let env := env_with NL (fun _ => unmarked_run) in
  let w1 := with_status (set_total 0) (world0 0) in
  load_targets NL (world0 0) = Return [] w1 /\
  running (STATUS w1) = true /\
  status_monitor [0%Q; 60%Q] w1 = Raise ZeroDivisionError w1 /\
  fst (main env (world0 0)) = Completed /\
  total (STATUS (snd (main env (world0 0)))) = 0.
Proof. cbv zeta. repeat split. Qed.

(** C9 (amended).  [analyze_hydra_output] returns no value and never
    raises.  The credentials it extracts are a function of the raw output
    alone ([found]); for each of them, in order, it appends one entry to
    [RESULTS['success']], raises [good] by one and, when a bot token is
    configured, posts one alert.  It changes no other counter. *)
Theorem C9_analysis_effects now output service target w :
  exists w',
    analyze_hydra_output now output service target w = Return tt w' /\
    success (RESULTS w')
    = (success (RESULTS w)
       ++ map (fun up => mkLogin service target (fst up) (snd up) now)
              (found output))%list /\
    good (STATUS w') = good (STATUS w) + Z.of_nat (length (found output)) /\
    tried (STATUS w') = tried (STATUS w) /\
    bad (STATUS w') = bad (STATUS w) /\
    na (STATUS w') = na (STATUS w) /\
    total (STATUS w') = total (STATUS w) /\
    outbox w'
    = (outbox w ++
       if String.eqb (bot_token (CONFIG w)) "YOUR_TELEGRAM_BOT_TOKEN" then []
       else map (fun up => LoginAlert
                             (mkLogin service target (fst up) (snd up) now))
                (found output))%list.
Proof.
  eexists. split; [apply analyze_hydra_output_eq|].
  destruct (recorded_STATUS now service target (found output) w)
    as (Ht & Hd & Hg & Hb & Hn).
  rewrite recorded_success, recorded_outbox.
  repeat split; assumption.
Qed.

(** C9, as stated, fails: analysing an output with one credentials line
    raises [good], appends to the result log and posts an alert, and
    analysing the same output again does all of that a second time. *)
Lemma C9_analysis_has_effects :
  let w0 := with_token (ready 1) in
  let w1 := world_of (analyze_hydra_output "2024-01-01T00:00:01"
                        marked_output "ssh" "10.0.0.1" w0) in
  let w2 := world_of (analyze_hydra_output "2024-01-01T00:00:01"
                        marked_output "ssh" "10.0.0.1" w1) in
  let r := mkLogin "ssh" "10.0.0.1" "root" "toor" "2024-01-01T00:00:01" in
  (good (STATUS w0), success (RESULTS w0), outbox w0) = (0, [], []) /\
  (good (STATUS w1), success (RESULTS w1), outbox w1)
  = (1, [r], [LoginAlert r]) /\
  (good (STATUS w2), success (RESULTS w2), outbox w2)
  = (2, [r; r], [LoginAlert r; LoginAlert r]).
Proof. cbv zeta. repeat split. Qed.

(** C10.  With a service other than ssh or rdp (in any letter case) the
    runner returns at once and leaves the world as it was: no process is
    spawned, no counter moves, the result log is unchanged.  A whole batch
    does the same, so after a run over a non-empty target list [tried] is
    still 0 and below [total]. *)
Theorem C10_unsupported_service_is_skipped service username password_list :
  supported service = false ->
  (forall run now target w,
      brute_force_service run now service target username password_list w
      = Return tt w) /\
  (forall tasks w,
      dispatch service username password_list tasks w = Return tt w) /\
  (forall env content w,
      stripped_lines content <> [] ->
      tried (STATUS w) = 0 ->
      let w' := world_of (session env service username password_list
                                  content w) in
      counters w' = counters w /\
      RESULTS w' = RESULTS w /\
      (forall cmd, ~ In (Spawned cmd) (syslog w) ->
                   ~ In (Spawned cmd) (syslog w')) /\
      tried (STATUS w') < total (STATUS w')).
Proof.
  intros Hs. split; [|split].
  - intros. now apply brute_force_service_unsupported.
  - intros. now apply dispatch_unsupported.
  - intros env content w Hne Hz. cbv zeta.
    rewrite (session_eq env service username password_list content w _
               (dispatch_unsupported service username password_list _ Hs _)).
    assert (Hn : 0 < Z.of_nat (length (stripped_lines content))).
    { destruct (stripped_lines content); [contradiction|]. simpl. lia. }
    unfold counters.
    rewrite saved_STATUS, saved_RESULTS, closed_STATUS, closed_RESULTS.
    rewrite opened_STATUS, opened_RESULTS. cbn [set_running set_total
      tried good bad na total]. rewrite Hz.
    repeat split; try reflexivity; try assumption.
    intros cmd Hnot Hin. apply saved_syslog in Hin.
    rewrite closed_syslog, opened_syslog in Hin.
    destruct Hin as [Hin|Hin]; [contradiction|].
    destruct Hin as (path & Hin). discriminate.
Qed.

Lemma C10_unsupported_service_is_skipped_witness :
  brute_force_service (mkRun (Exits 0) (Holds marked_output))
                      "2024-01-01T00:00:01" "FTP" "10.0.0.1" "root" "pw.txt"
                      (ready 1)
  = Return tt (ready 1) /\
  (let w' := world_of (session (env_with "10.0.0.1" (fun _ => unmarked_run))
                               "FTP" "root" "pw.txt" "10.0.0.1" (world0 0)) in
   tried (STATUS w') < total (STATUS w')).
Proof.
  destruct (C10_unsupported_service_is_skipped "FTP" "root" "pw.txt" eq_refl)
    as (Hrun & _ & Hsession).
  split.
  - exact (Hrun (mkRun (Exits 0) (Holds marked_output)) "2024-01-01T00:00:01"
                "10.0.0.1" (ready 1)).
  - apply (Hsession (env_with "10.0.0.1" (fun _ => unmarked_run))
                    "10.0.0.1" (world0 0)).
    + discriminate.
    + reflexivity.
Defined.

End BruteFacts.

(** * Properties of the scan driver *)

Module ScanFacts.

Import Text Scan ScanViews ScanCases.
Local Open Scope py_scope.

Lemma collect_eq (item : Item) (results : list Candidate) :
  well_formed item = true ->
  collect item results
  = Return tt (results ++ match first_candidate item with
                          | Some c => [c]
                          | None => []
                          end)%list.
Proof.
  unfold well_formed, first_candidate, has_both, collect, bind, lookup_or.
  destruct (ip item) as [a|]; [|intros _; now rewrite app_nil_r].
  destruct (ports item) as [[|p ps]|]; simpl.
  - discriminate.
  - destruct (port p) as [n|]; simpl; [reflexivity|discriminate].
  - intros _. now rewrite app_nil_r.
Qed.

Lemma collect_all_eq (report : list Item) :
  forallb well_formed report = true ->
  forall results,
    collect_all report results
    = Return tt (results ++ candidates_of report)%list.
Proof.
  induction report as [|item rest IH]; intros Hwf results.
  - simpl. now rewrite app_nil_r.
  - simpl in Hwf. apply andb_true_iff in Hwf as [Hi Hr].
    cbn [collect_all]. unfold bind. rewrite collect_eq by assumption.
    rewrite IH by assumption. unfold candidates_of. simpl.
    now rewrite <- app_assoc.
Qed.

(** On a report that came back with status 0 as valid JSON and on which
    the loop does not raise, the result is one candidate per entry that has
    both keys. *)
Lemma masscan_ips_eq (report : list Item) :
  forallb well_formed report = true ->
  masscan_ips (ScanExits 0 (Some report)) = candidates_of report.
Proof.
  intros Hwf. unfold masscan_ips, try_finally, try_except, scan_body.
  change (0 =? 0) with true. cbv iota. unfold bind, lookup_or, ret.
  unfold try_except. rewrite collect_all_eq by assumption. reflexivity.
Qed.

Lemma candidates_of_length (report : list Item) :
  forallb well_formed report = true ->
  length (candidates_of report) = length (filter has_both report).
Proof.
  induction report as [|item rest IH]; intros Hwf; [reflexivity|].
  simpl in Hwf. apply andb_true_iff in Hwf as [Hi Hr].
  unfold candidates_of in *. simpl. rewrite length_app, IH by assumption.
  unfold well_formed in Hi.
  destruct (first_candidate item) as [c|] eqn:Hc.
  - unfold first_candidate, has_both in *.
    destruct (ip item); [|discriminate].
    destruct (ports item) as [[|p ps]|]; try discriminate. reflexivity.
  - apply negb_true_iff in Hi. rewrite Hi. reflexivity.
Qed.

(** The ways in which the scan yields no candidate at all. *)
Lemma masscan_ips_failed (run : ScanRun) :
  match run with
  | ScanExits 0 (Some _) => False
  | _ => True
  end ->
  masscan_ips run = [].
Proof.
  destruct run as [e| |rc [report|]]; try reflexivity.
  - destruct rc; [contradiction| |]; reflexivity.
  - intros _. unfold masscan_ips, try_finally, try_except, scan_body.
    destruct (rc =? 0); reflexivity.
Qed.

(** C5 (amended).  On a report returned with status 0 as valid JSON, in
    which every entry that has both an ['ip'] and a ['ports'] key lists at
    least one port and its first port carries a ['port'], each entry's
    address is surfaced with the first port of its list, and the candidates
    are exactly one per such entry. *)
Theorem C5_first_port_is_surfaced (report : list Item) :
  forallb well_formed report = true ->
  (forall item a p rest n,
      In item report ->
      ip item = Some a ->
      ports item = Some (p :: rest) ->
      port p = Some n ->
      surfaced (masscan_ips (ScanExits 0 (Some report))) a n) /\
  length (masscan_ips (ScanExits 0 (Some report)))
  = length (filter has_both report).
Proof.
  intros Hwf. rewrite masscan_ips_eq by assumption. split.
  - intros item a p rest n Hin Hip Hports Hport.
    unfold surfaced, candidates_of. apply in_flat_map.
    exists item. split; [assumption|].
    unfold first_candidate. rewrite Hip, Hports, Hport. now left.
  - now apply candidates_of_length.
Qed.

Lemma C5_first_port_is_surfaced_witness :
  surfaced (masscan_ips (ScanExits 0 (Some two_port_report))) "10.0.0.1" 22 /\
  length (masscan_ips (ScanExits 0 (Some two_port_report))) = 1%nat.
Proof.
  destruct (C5_first_port_is_surfaced two_port_report eq_refl) as [Hs Hl].
  split.
  - apply (Hs (mkItem (Some "10.0.0.1")
                      (Some [mkPort (Some 22); mkPort (Some 3389)]))
              "10.0.0.1" (mkPort (Some 22)) [mkPort (Some 3389)] 22).
    + now left.
    + reflexivity.
    + reflexivity.
    + reflexivity.
  - exact Hl.
Defined.

(** C5, as stated, fails: an entry lists ports 22 and 3389 as open on one
    address, and 3389 is not among the candidates. *)
Lemma C5_second_port_is_dropped :
  listed two_port_report "10.0.0.1" 3389 /\
  ~ surfaced (masscan_ips (ScanExits 0 (Some two_port_report)))
             "10.0.0.1" 3389.
Proof.
  split.
  - exists (mkItem (Some "10.0.0.1")
                   (Some [mkPort (Some 22); mkPort (Some 3389)])),
           [mkPort (Some 22); mkPort (Some 3389)].
    repeat split; simpl; auto.
  - unfold surfaced. vm_compute. intros [H|[]]. discriminate.
Qed.

End ScanFacts.

(** * Properties of the two entry points *)

Module EntryFacts.

Import Text EntryViews.
Local Open Scope py_scope.

(** ** Notifications of the scan driver *)

Lemma scan_send_eq (a : Scan.Args) (m : Scan.Message) (w : Scan.World) :
  Scan.send_telegram_message (Scan.bot_token a) (Scan.chat_id a) m w
  = Return tt (scan_notify a m w).
Proof.
  unfold Scan.send_telegram_message, scan_notify, try_except, modify, ret.
  destruct (negb (Scan.given (Scan.bot_token a))
            || negb (Scan.given (Scan.chat_id a))); reflexivity.
Qed.

Lemma scan_notify_given (a : Scan.Args) (m : Scan.Message) (w : Scan.World) :
  Scan.given (Scan.bot_token a) = true ->
  Scan.given (Scan.chat_id a) = true ->
  scan_notify a m w = Scan.post m w.
Proof. unfold scan_notify. now intros -> ->. Qed.

(** [report] never raises. *)
Lemma report_returns a n_ips n_open finish verified_ips w :
  exists w',
    Scan.report a n_ips n_open finish verified_ips w = Return tt w'.
Proof.
  unfold Scan.report, bind. rewrite scan_send_eq.
  destruct verified_ips as [|x rest]; [eexists; reflexivity|].
  destruct (_ <? 4000); [|eexists; reflexivity].
  rewrite scan_send_eq. eexists; reflexivity.
Qed.

(** With a writable directory the scan session runs to its end. *)
Lemma executor_positive (n : Z) (w : Scan.World) :
  0 < n -> Scan.executor n w = Return tt w.
Proof.
  intros Hn. unfold Scan.executor.
  destruct (Z.leb_spec n 0); [lia|reflexivity].
Qed.

Lemma executor_nonpositive (n : Z) (w : Scan.World) :
  n <= 0 -> Scan.executor n w = Raise ValueError w.
Proof.
  intros Hn. unfold Scan.executor.
  destruct (Z.leb_spec n 0); [reflexivity|lia].
Qed.

Lemma scan_session_returns env a ips w :
  0 < Scan.max_workers a ->
  Scan.writable env = true ->
  exists w', Scan.session env a ips w = Return tt w'.
Proof.
  intros Hn Hw. unfold Scan.session, bind.
  rewrite scan_send_eq, (executor_positive _ _ Hn), Hw.
  unfold modify at 1. apply report_returns.
Qed.

(** ** The preview of the verified addresses *)

Lemma preview_split (verified_ips : list string) :
  let preview := firstn 20 verified_ips in
  let rest := skipn 20 verified_ips in
  verified_ips = (preview ++ rest)%list /\
  (length preview <= 20)%nat /\
  (rest = [] -> Scan.more_of verified_ips = None) /\
  (rest <> [] ->
   length preview = 20%nat /\
   Scan.more_of verified_ips = Some (Z.of_nat (length rest))).
Proof.
  cbv zeta. split; [now rewrite firstn_skipn|].
  split; [rewrite length_firstn; lia|].
  unfold Scan.more_of.
  pose proof (length_skipn 20 verified_ips) as Hs.
  pose proof (length_firstn 20 verified_ips) as Hf.
  split.
  - intros Hnil. rewrite Hnil in Hs. simpl in Hs.
    destruct (Z.ltb_spec 20 (Z.of_nat (length verified_ips))); [lia|reflexivity].
  - intros Hne.
    assert (0 < length (skipn 20 verified_ips))%nat.
    { destruct (skipn 20 verified_ips); [contradiction|simpl; lia]. }
    split; [lia|].
    destruct (Z.ltb_spec 20 (Z.of_nat (length verified_ips))); [|lia].
    f_equal. lia.
Qed.

(** ** Exit codes *)

Lemma brute_main_rejects env w :
  brute_inputs_ok env w = false ->
  Brute.main env w = (SysExit 1, w).
Proof.
  unfold brute_inputs_ok, Brute.main, Brute.locate_hydra. intros H.
  destruct (Z.ltb_spec (Z.of_nat (length (Brute.argv env))) 5) as [|Hlen];
    [reflexivity|].
  destruct (Z.leb_spec 5 (Z.of_nat (length (Brute.argv env)))); [|lia].
  destruct (Brute.isfile env (nth 2 (Brute.argv env) "")); [|reflexivity].
  destruct (Brute.isfile env (nth 4 (Brute.argv env) "")); [|reflexivity].
  destruct (Brute.isfile env (Brute.hydra (Brute.CONFIG w)));
    [discriminate|].
  destruct (fst (Brute.which_hydra env) =? 0); [discriminate|reflexivity].
Qed.

Lemma brute_main_completes env w content :
  brute_inputs_ok env w = true ->
  Brute.read_text env (nth 2 (Brute.argv env) "") = inr content ->
  Brute.writable env = true ->
  fst (Brute.main env w) = Completed.
Proof.
  unfold brute_inputs_ok, Brute.main. intros H Hread Hw.
  apply andb_true_iff in H as [H Hhydra].
  apply andb_true_iff in H as [H Hpw].
  apply andb_true_iff in H as [Hlen Htg].
  destruct (Z.ltb_spec (Z.of_nat (length (Brute.argv env))) 5);
    [apply Z.leb_le in Hlen; lia|].
  rewrite Htg, Hpw. cbn [negb].
  assert (Hloc : exists w1, Brute.locate_hydra env w = Some w1).
  { unfold Brute.locate_hydra.
    destruct (Brute.isfile env (Brute.hydra (Brute.CONFIG w)));
      [eauto|].
    simpl in Hhydra. rewrite Hhydra. eauto. }
  destruct Hloc as [w1 ->]. rewrite Hread.
  destruct (BruteFacts.dispatch_returns
              (nth 1 (Brute.argv env) "") (nth 3 (Brute.argv env) "")
              (nth 4 (Brute.argv env) "")
              (Brute.schedule_from env 0 (stripped_lines content))
              (BruteViews.opened env (nth 1 (Brute.argv env) "")
                                 (nth 3 (Brute.argv env) "")
                                 (nth 4 (Brute.argv env) "") content w1))
    as [w3 Hd].
  rewrite (BruteFacts.session_eq _ _ _ _ _ _ _ Hd).
  unfold BruteViews.saved. rewrite Hw. reflexivity.
Qed.

(** C7 (amended).  [practice.py] exits with code 1 when one of its checks
    fails (fewer than four arguments, the targets file or the password
    list not an existing file, hydra neither at its configured path nor
    found by [which]) and with code 0 when it runs to its end, whatever the
    tool runs gave.  [practice-3.py] exits with code 0 when it runs to its
    end, which takes a readable IP list, a positive [--max-workers] and
    writable result files; it exits with code 0 as well when the IP list
    file does not exist (it prints a message and returns); and with a zero
    or negative [--max-workers] it ends in a [ValueError] traceback, exit
    code 1. *)
Theorem C7_exit_codes :
  (forall env w,
      brute_inputs_ok env w = false ->
      exit_status (fst (Brute.main env w)) = 1) /\
  (forall env w content,
      brute_inputs_ok env w = true ->
      Brute.read_text env (nth 2 (Brute.argv env) "") = inr content ->
      Brute.writable env = true ->
      exit_status (fst (Brute.main env w)) = 0) /\
  (forall env w a content,
      Scan.parsed env = Some a ->
      Scan.read_text env (Scan.ip_list a) = inr content ->
      0 < Scan.max_workers a ->
      Scan.writable env = true ->
      exit_status (fst (Scan.main env w)) = 0) /\
  (forall env w a,
      Scan.parsed env = Some a ->
      Scan.read_text env (Scan.ip_list a) = inl FileNotFoundError ->
      Scan.main env w = (Completed, w) /\
      exit_status (fst (Scan.main env w)) = 0) /\
  (forall env w a content,
      Scan.parsed env = Some a ->
      Scan.read_text env (Scan.ip_list a) = inr content ->
      Scan.max_workers a <= 0 ->
      fst (Scan.main env w) = Uncaught ValueError /\
      exit_status (fst (Scan.main env w)) = 1).
Proof.
  split; [|split; [|split; [|split]]].
  - intros env w H. now rewrite brute_main_rejects.
  - intros env w content H Hr Hw.
    now rewrite (brute_main_completes env w content).
  - intros env w a content Hp Hr Hn Hw. unfold Scan.main. rewrite Hp, Hr.
    destruct (scan_session_returns env a (stripped_lines content) w Hn Hw)
      as [w' ->]. reflexivity.
  - intros env w a Hp Hr. unfold Scan.main. rewrite Hp, Hr.
    split; reflexivity.
  - intros env w a content Hp Hr Hn. unfold Scan.main. rewrite Hp, Hr.
    unfold Scan.session, bind.
    rewrite scan_send_eq, (executor_nonpositive _ _ Hn).
    split; reflexivity.
Qed.

Lemma C7_exit_codes_witness :
  exit_status (fst (Brute.main env_no_targets (Brute.world0 0))) = 1 /\
  exit_status (fst (Brute.main env21 (Brute.world0 0))) = 0 /\
  exit_status (fst (Scan.main ScanCases.env_all_up Scan.world0)) = 0 /\
  exit_status (fst (Scan.main ScanCases.env_missing_list Scan.world0)) = 0 /\
  exit_status (fst (Scan.main env_no_workers Scan.world0)) = 1.
Proof.
  destruct C7_exit_codes as (Hreject & Hbrute & Hscan & Hmissing & Hpool).
  split; [|split; [|split; [|split]]].
  - apply Hreject. reflexivity.
  - apply (Hbrute env21 (Brute.world0 0) (join NL ScanCases.ips21));
      reflexivity.
  - apply (Hscan ScanCases.env_all_up Scan.world0 ScanCases.args_ssh
                 (join NL ScanCases.ips21)); reflexivity.
  - apply (Hmissing ScanCases.env_missing_list Scan.world0
                    ScanCases.args_ssh); reflexivity.
  - apply (Hpool env_no_workers Scan.world0
                 (Scan.mkArgs "ssh" "ips.txt" 2 (Some "123456:token")
                              (Some "42") 0)
                 (join NL ScanCases.ips21)).
    + reflexivity.
    + reflexivity.
    + discriminate.
Defined.

(** C7, as stated, fails: the IP list file is missing and the scan entry
    point ends with exit code 0. *)
Lemma C7_missing_list_exits_zero :
  Scan.read_text ScanCases.env_missing_list
                 (Scan.ip_list ScanCases.args_ssh)
  = inl FileNotFoundError /\
  exit_status (fst (Scan.main ScanCases.env_missing_list Scan.world0)) = 0.
Proof. split; reflexivity. Qed.

(** ** The full list in a message *)

(** C8, as stated, fails: with 21 verified addresses the scan driver posts
    the whole list in its second message, and with 21 recorded logins the
    final message of the brute-force driver lists all 21. *)
Lemma C8_full_list_is_posted :
  (20 < length ScanCases.ips21)%nat /\
  In (Scan.VerifiedList (join NL ScanCases.ips21))
     (Scan.outbox (snd (Scan.main ScanCases.env_all_up Scan.world0))) /\
  logins_listed
    (last_posted (snd (Brute.main env21
                         (BruteCases.with_token (Brute.world0 0))))) = 21.
Proof.
  split; [simpl; lia|]. split.
  - vm_compute. right. right. left. reflexivity.
  - vm_compute. reflexivity.
Qed.

End EntryFacts.

(** * Facts about the text primitives *)

Module TextFacts.

Import Text.

Lemma split_nonempty (sep : ascii) (s : string) : split sep s <> [].
Proof.
  destruct s as [|c s']; simpl; [discriminate|].
  destruct (Ascii.eqb c sep); [discriminate|].
  destruct (split sep s'); discriminate.
Qed.

(** Splitting distributes over a separator. *)
Lemma split_app (sep : ascii) (a b : string) :
  split sep (a ++ String sep b) = (split sep a ++ split sep b)%list.
Proof.
  induction a as [|c a' IH]; simpl.
  - now rewrite Ascii.eqb_refl.
  - destruct (Ascii.eqb c sep).
    + now rewrite IH.
    + rewrite IH. pose proof (split_nonempty sep a') as Hne.
      destruct (split sep a') as [|h t]; [contradiction|reflexivity].
Qed.

Lemma prefix_nil (s : string) : String.prefix EmptyString s = true.
Proof. destruct s; reflexivity. Qed.

Lemma prefix_refl_app (t b : string) : String.prefix t (t ++ b) = true.
Proof.
  induction t as [|c t' IH]; simpl; [apply prefix_nil|].
  destruct (ascii_dec c c); [assumption|contradiction].
Qed.

Lemma prefix_cons (c : ascii) (h s : string) :
  String.prefix h s = true -> String.prefix (String c h) (String c s) = true.
Proof.
  intros H. simpl. destruct (ascii_dec c c); [assumption|contradiction].
Qed.

Lemma prefix_contains (t s : string) :
  String.prefix t s = true -> contains t s = true.
Proof. intros H. destruct s; cbn [contains]; now rewrite H. Qed.

Lemma contains_cons (t : string) (c : ascii) (s : string) :
  contains t s = true -> contains t (String c s) = true.
Proof.
  intros H. cbn [contains]. destruct (String.prefix t (String c s));
    [reflexivity|assumption].
Qed.

(** The first token of a text that starts with a non-space character is a
    prefix of the text. *)
Lemma first_token_prefix (s : string) :
  forall c s', s = String c s' -> is_space c = false ->
  forall h t, split_ws s = h :: t -> String.prefix h s = true.
Proof.
  induction s as [|c0 s0 IH]; intros c s' Hs Hc h t Hsplit; [discriminate|].
  injection Hs as -> ->. cbn [split_ws] in Hsplit. rewrite Hc in Hsplit.
  destruct s' as [|c' s''].
  - injection Hsplit as <- _. apply prefix_cons, prefix_nil.
  - destruct (is_space c') eqn:Hc'.
    + injection Hsplit as <- _. apply prefix_cons, prefix_nil.
    + destruct (split_ws (String c' s'')) as [|h' t'] eqn:Hrest.
      * injection Hsplit as <- _. apply prefix_cons, prefix_nil.
      * injection Hsplit as <- _. apply prefix_cons.
        apply (IH c' s'' eq_refl Hc' h' t' eq_refl).
Qed.

(** Every token of a text occurs in it. *)
Lemma token_contains (s t : string) :
  In t (split_ws s) -> contains t s = true.
Proof.
  induction s as [|c s' IH]; intros Hin; [contradiction|].
  cbn [split_ws] in Hin. destruct (is_space c) eqn:Hc.
  - apply contains_cons, IH, Hin.
  - destruct s' as [|c' s''].
    + destruct Hin as [<-|[]]. apply prefix_contains, prefix_cons, prefix_nil.
    + destruct (is_space c') eqn:Hc'.
      * destruct Hin as [<-|Hin].
        -- apply prefix_contains, prefix_cons, prefix_nil.
        -- apply contains_cons, IH, Hin.
      * destruct (split_ws (String c' s'')) as [|h' t'] eqn:Hrest.
        -- destruct Hin as [<-|[]]. apply prefix_contains, prefix_cons, prefix_nil.
        -- destruct Hin as [<-|Hin].
           ++ apply prefix_contains, prefix_cons.
              apply (first_token_prefix _ c' s'' eq_refl Hc' h' t' Hrest).
           ++ apply contains_cons, IH. now right.
Qed.

Lemma index_first (x : string) (pre rest : list string) :
  ~ In x pre -> index x (pre ++ x :: rest) = Some (length pre).
Proof.
  induction pre as [|y pre' IH]; intros Hnot; simpl.
  - now rewrite String.eqb_refl.
  - destruct (String.eqb_spec y x) as [->|_].
    + exfalso. apply Hnot. now left.
    + rewrite IH; [reflexivity|]. intros Hin. apply Hnot. now right.
Qed.

Lemma index_absent (x : string) (l : list string) :
  ~ In x l -> index x l = None.
Proof.
  induction l as [|y l' IH]; intros Hnot; simpl; [reflexivity|].
  destruct (String.eqb_spec y x) as [->|_].
  - exfalso. apply Hnot. now left.
  - rewrite IH; [reflexivity|]. intros Hin. apply Hnot. now right.
Qed.

Lemma nth_error_after (pre rest : list string) (k : nat) :
  nth_error (pre ++ rest) (length pre + k) = nth_error rest k.
Proof. induction pre as [|y pre' IH]; simpl; [reflexivity|exact IH]. Qed.

End TextFacts.

(** * Further properties of the brute-force driver *)

Module BruteMore.

Import Text Brute BruteViews BruteCases MoreViews BruteFacts TextFacts.
Local Open Scope py_scope.

(** ** One task, counter by counter *)

Lemma settled_counts run now service target cmd w :
  let w' := settled run now service target cmd w in
  na (STATUS w') = na (STATUS w) + na_of run /\
  bad (STATUS w') = bad (STATUS w) + bad_of run /\
  good (STATUS w') = good (STATUS w) + good_of run.
Proof.
  unfold settled, na_of, bad_of, good_of, verdict.
  destruct (proc run) as [f| |rc]; simpl; try (repeat split; lia).
  destruct (file run) as [|content|f]; simpl; try (repeat split; lia).
  destruct (String.eqb content ""); simpl; try (repeat split; lia).
  destruct (recorded_STATUS now service target (found content)
              (log (Spawned cmd) w)) as (_ & _ & Hg & Hb & Hn).
  simpl in *. repeat split; lia.
Qed.

Lemma runner_world run now service target username password_list w :
  supported service = true ->
  exists cmd,
    command (CONFIG w) service target username password_list
            (output_path service target) = Some cmd /\
    world_of (brute_force_service run now service target
                                  username password_list w)
    = tidied run (output_path service target)
             (settled run now service target cmd w).
Proof.
  intros Hs.
  destruct (command_supported (CONFIG w) service target username
              password_list (output_path service target) Hs) as [cmd Hcmd].
  exists cmd. split; [assumption|].
  now rewrite (brute_force_service_eq _ _ _ _ _ _ _ _ Hcmd).
Qed.

Lemma runner_counts run now service target username password_list w :
  supported service = true ->
  let w' := world_of (brute_force_service run now service target
                                          username password_list w) in
  tried (STATUS w') = tried (STATUS w) + 1 /\
  na (STATUS w') = na (STATUS w) + na_of run /\
  bad (STATUS w') = bad (STATUS w) + bad_of run /\
  good (STATUS w') = good (STATUS w) + good_of run /\
  total (STATUS w') = total (STATUS w).
Proof.
  intros Hs. cbv zeta.
  destruct (runner_world run now service target username password_list w Hs)
    as (cmd & _ & ->).
  pose proof (tidied_counters run (output_path service target)
                (settled run now service target cmd w)) as Hc.
  unfold counters in Hc. injection Hc as Ht Hg Hb Hn.
  rewrite Ht, Hg, Hb, Hn, tidied_total.
  destruct (settled_counts run now service target cmd w) as (Hna & Hbad & Hgood).
  destruct (settled_frame run now service target cmd w)
    as (Htot & Htr & _).
  rewrite Hna, Hbad, Hgood, Htot, Htr. repeat split; reflexivity.
Qed.

Lemma dispatch_cons service username password_list t rest w :
  dispatch service username password_list (t :: rest) w
  = dispatch service username password_list rest
             (world_of (brute_force_service (task_run t) (task_now t) service
                          (task_target t) username password_list w)).
Proof. reflexivity. Qed.

(** A property of the world kept by every task is kept by a batch. *)
Lemma dispatch_preserves (P : World -> Prop) service username password_list :
  (forall run now target w,
      P w ->
      P (world_of (brute_force_service run now service target
                     username password_list w))) ->
  forall tasks w,
    P w -> P (world_of (dispatch service username password_list tasks w)).
Proof.
  intros Hstep tasks. induction tasks as [|t rest IH]; intros w Hw.
  - exact Hw.
  - rewrite dispatch_cons. apply IH, Hstep, Hw.
Qed.

Lemma session_world env service username password_list content w :
  world_of (session env service username password_list content w)
  = world_of
      (saved env
         (closed env
            (world_of
               (dispatch service username password_list
                  (schedule_from env 0 (stripped_lines content))
                  (opened env service username password_list content w))))).
Proof.
  destruct (dispatch_returns service username password_list
              (schedule_from env 0 (stripped_lines content))
              (opened env service username password_list content w))
    as [w3 Hd].
  rewrite (session_eq _ _ _ _ _ _ _ Hd), Hd. reflexivity.
Qed.

(** ** A batch, counter by counter *)

Lemma settled_success run now service target cmd w :
  success (RESULTS (settled run now service target cmd w))
  = (success (RESULTS w)
     ++ logins_of service (mkTask run now target))%list.
Proof.
  unfold settled, logins_of, verdict. cbn [task_run task_now task_target].
  destruct (proc run) as [f| |rc]; simpl; try now rewrite app_nil_r.
  destruct (file run) as [|content|f]; simpl; try now rewrite app_nil_r.
  destruct (String.eqb content ""); simpl; [now rewrite app_nil_r|].
  now rewrite recorded_success.
Qed.

Lemma recorded_failures now service target (ups : list (string * string)) :
  forall w,
    failures (RESULTS (fold_left (record now service target) ups w))
    = failures (RESULTS w).
Proof.
  induction ups as [|up rest IH]; intros w; simpl; [reflexivity|].
  rewrite IH. unfold record. now rewrite notify_RESULTS.
Qed.

Lemma recorded_clock now service target (ups : list (string * string)) :
  forall w,
    start_time (STATUS (fold_left (record now service target) ups w))
    = start_time (STATUS w) /\
    running (STATUS (fold_left (record now service target) ups w))
    = running (STATUS w).
Proof.
  induction ups as [|up rest IH]; intros w; simpl; [split; reflexivity|].
  destruct (IH (record now service target w up)) as [Hs Hr].
  rewrite Hs, Hr, record_STATUS. split; reflexivity.
Qed.

Lemma settled_failures run now service target cmd w :
  failures (RESULTS (settled run now service target cmd w))
  = failures (RESULTS w).
Proof.
  unfold settled.
  destruct (proc run) as [f| |rc]; simpl; try reflexivity.
  destruct (file run) as [|content|f]; simpl; try reflexivity.
  destruct (String.eqb content ""); simpl; [reflexivity|].
  now rewrite recorded_failures.
Qed.

Lemma settled_clock run now service target cmd w :
  start_time (STATUS (settled run now service target cmd w))
  = start_time (STATUS w) /\
  running (STATUS (settled run now service target cmd w))
  = running (STATUS w).
Proof.
  unfold settled.
  destruct (proc run) as [f| |rc]; simpl; try (split; reflexivity).
  destruct (file run) as [|content|f]; simpl; try (split; reflexivity).
  destruct (String.eqb content ""); simpl; [split; reflexivity|].
  destruct (recorded_clock now service target (found content)
              (log (Spawned cmd) w)) as [Hs Hr].
  rewrite Hs, Hr. split; reflexivity.
Qed.

Lemma batch_counts service username password_list tasks :
  supported service = true ->
  forall w,
    counters (world_of (dispatch service username password_list tasks w))
    = (tried (STATUS w) + Z.of_nat (length tasks),
       good (STATUS w) + sum_over good_of tasks,
       bad (STATUS w) + sum_over bad_of tasks,
       na (STATUS w) + sum_over na_of tasks).
Proof.
  intros Hs. induction tasks as [|t rest IH]; intros w.
  - unfold counters. simpl. now rewrite !Z.add_0_r.
  - rewrite dispatch_cons, IH.
    destruct (runner_counts (task_run t) (task_now t) service (task_target t)
                username password_list w Hs)
      as (Ht1 & Hn1 & Hb1 & Hg1 & _).
    rewrite Ht1, Hn1, Hb1, Hg1.
    cbn [length sum_over fold_right]. rewrite Nat2Z.inj_succ.
    fold (sum_over na_of rest). fold (sum_over bad_of rest).
    fold (sum_over good_of rest).
    f_equal; [f_equal; [f_equal|]|]; lia.
Qed.

(** X1.  After a batch for a supported service, each counter has grown by
    what the runs of the batch add to it: [tried] by the number of tasks,
    [na] by the runs that timed out or failed to spawn or to be read, [bad]
    by the runs whose output file is missing or empty, [good] by the
    credentials found in the files that were read; [total] is untouched. *)
Theorem batch_counters service username password_list tasks :
  supported service = true ->
  forall w,
    let w' := world_of (dispatch service username password_list tasks w) in
    tried (STATUS w') = tried (STATUS w) + Z.of_nat (length tasks) /\
    na (STATUS w') = na (STATUS w) + sum_over na_of tasks /\
    bad (STATUS w') = bad (STATUS w) + sum_over bad_of tasks /\
    good (STATUS w') = good (STATUS w) + sum_over good_of tasks /\
    total (STATUS w') = total (STATUS w).
Proof.
  intros Hs w. cbv zeta.
  pose proof (batch_counts service username password_list tasks Hs w) as Hc.
  unfold counters in Hc. injection Hc as Ht Hg Hb Hn.
  destruct (dispatch_supported service username password_list tasks Hs w)
    as (w' & Hrun & _ & Htot & _).
  rewrite Hrun in *. cbn [world_of] in *.
  repeat split; assumption.
Qed.

Lemma batch_counters_witness :
  let w' := world_of
              (dispatch "ssh" "root" "pw.txt"
                 [mkTask (mkRun TimesOut Absent) "t1" "10.0.0.1";
                  mkTask (mkRun (Exits 0) Absent) "t2" "10.0.0.2";
                  mkTask (mkRun (Exits 0) (Holds marked_output)) "t3"
                         "10.0.0.3"]
                 (ready 3)) in
  tried (STATUS w') = 0 + 3 /\
  na (STATUS w') = 0 + 1 /\
  bad (STATUS w') = 0 + 1 /\
  good (STATUS w') = 0 + 1 /\
  total (STATUS w') = 3.
Proof.
  exact (batch_counters "ssh" "root" "pw.txt"
           [mkTask (mkRun TimesOut Absent) "t1" "10.0.0.1";
            mkTask (mkRun (Exits 0) Absent) "t2" "10.0.0.2";
            mkTask (mkRun (Exits 0) (Holds marked_output)) "t3" "10.0.0.3"]
           eq_refl (ready 3)).
Defined.

Lemma batch_success service username password_list tasks :
  supported service = true ->
  forall w,
    success (RESULTS (world_of (dispatch service username password_list
                                         tasks w)))
    = (success (RESULTS w) ++ flat_map (logins_of service) tasks)%list.
Proof.
  intros Hs. induction tasks as [|t rest IH]; intros w.
  - simpl. now rewrite app_nil_r.
  - rewrite dispatch_cons, IH.
    destruct (runner_world (task_run t) (task_now t) service (task_target t)
                username password_list w Hs) as (cmd & _ & ->).
    rewrite tidied_RESULTS, settled_success. cbn [flat_map].
    rewrite <- app_assoc. destruct t; reflexivity.
Qed.

Lemma sum_over_permutation (f : ToolRun -> Z) (tasks tasks' : list Task) :
  Permutation tasks tasks' -> sum_over f tasks = sum_over f tasks'.
Proof.
  induction 1 as [|t l l' _ IH|t u l|l l' l'' _ IH1 _ IH2]; simpl.
  - reflexivity.
  - fold (sum_over f l). fold (sum_over f l'). lia.
  - fold (sum_over f l). lia.
  - lia.
Qed.

(** X2.  The order in which the tasks of a batch complete does not matter
    to the counters, and the result log holds the same entries up to
    order. *)
Theorem batch_order_is_irrelevant service username password_list tasks tasks' w :
  supported service = true ->
  Permutation tasks tasks' ->
  counters (world_of (dispatch service username password_list tasks w))
  = counters (world_of (dispatch service username password_list tasks' w)) /\
  Permutation
    (success (RESULTS (world_of (dispatch service username password_list
                                          tasks w))))
    (success (RESULTS (world_of (dispatch service username password_list
                                          tasks' w)))).
Proof.
  intros Hs Hp. split.
  - rewrite !batch_counts by assumption.
    rewrite (Permutation_length Hp).
    rewrite (sum_over_permutation na_of _ _ Hp).
    rewrite (sum_over_permutation bad_of _ _ Hp).
    rewrite (sum_over_permutation good_of _ _ Hp). reflexivity.
  - rewrite !batch_success by assumption.
    apply Permutation_app_head. now apply Permutation_flat_map.
Qed.

Lemma batch_order_is_irrelevant_witness :
  counters (world_of (dispatch "ssh" "root" "pw.txt"
                        [mkTask (mkRun TimesOut Absent) "t1" "10.0.0.1";
                         mkTask (mkRun (Exits 0) (Holds marked_output)) "t2"
                                "10.0.0.2"]
                        (ready 2)))
  = counters (world_of (dispatch "ssh" "root" "pw.txt"
                          [mkTask (mkRun (Exits 0) (Holds marked_output)) "t2"
                                  "10.0.0.2";
                           mkTask (mkRun TimesOut Absent) "t1" "10.0.0.1"]
                          (ready 2))).
Proof.
  apply (batch_order_is_irrelevant "ssh" "root" "pw.txt"
           [mkTask (mkRun TimesOut Absent) "t1" "10.0.0.1";
            mkTask (mkRun (Exits 0) (Holds marked_output)) "t2" "10.0.0.2"]
           [mkTask (mkRun (Exits 0) (Holds marked_output)) "t2" "10.0.0.2";
            mkTask (mkRun TimesOut Absent) "t1" "10.0.0.1"]
           (ready 2)).
  - reflexivity.
  - apply perm_swap.
Defined.

(** ** What a task and a batch leave alone *)

Lemma settled_syslog run now service target cmd w :
  syslog (settled run now service target cmd w)
  = (syslog w ++ match proc run with
                 | SpawnFails _ => []
                 | TimesOut => [Spawned cmd; Killed cmd]
                 | Exits _ => [Spawned cmd]
                 end)%list.
Proof.
  unfold settled.
  destruct (proc run) as [f| |rc]; simpl.
  - now rewrite app_nil_r.
  - now rewrite <- app_assoc.
  - destruct (file run) as [|content|f]; simpl; try reflexivity.
    destruct (String.eqb content ""); simpl; [reflexivity|].
    now rewrite recorded_syslog.
Qed.

Lemma settled_outbox run now service target cmd w :
  outbox (settled run now service target cmd w)
  = (outbox w ++ if unconfigured w then []
                 else map LoginAlert
                          (logins_of service (mkTask run now target)))%list.
Proof.
  unfold settled, logins_of, verdict, unconfigured.
  cbn [task_run task_now task_target].
  destruct (proc run) as [f| |rc]; simpl;
    try (destruct (String.eqb _ _); now rewrite app_nil_r).
  destruct (file run) as [|content|f]; simpl;
    try (destruct (String.eqb _ _); now rewrite app_nil_r).
  destruct (String.eqb content ""); simpl;
    [destruct (String.eqb _ _); now rewrite app_nil_r|].
  rewrite recorded_outbox. simpl.
  destruct (String.eqb _ _); [reflexivity|]. now rewrite map_map.
Qed.

(** X3.  [STATUS['good']] equals the number of entries of
    [RESULTS['success']] at the end of a session whenever it did at the
    start, whatever the service, the targets and the tool runs. *)
Theorem good_counts_the_result_log
        env service username password_list content w :
  logged w ->
  logged (world_of (session env service username password_list content w)).
Proof.
  intros Hw. rewrite session_world. unfold logged.
  rewrite saved_STATUS, saved_RESULTS, closed_STATUS, closed_RESULTS.
  cbn [set_running good].
  apply (dispatch_preserves logged).
  - clear. intros run now target w Hw.
    destruct (supported service) eqn:Hs.
    + destruct (runner_world run now service target username password_list
                             w Hs) as (cmd & _ & ->).
      unfold logged.
      pose proof (tidied_counters run (output_path service target)
                    (settled run now service target cmd w)) as Hc.
      unfold counters in Hc. injection Hc as _ Hg _ _.
      rewrite Hg, tidied_RESULTS, settled_success, length_app.
      destruct (settled_counts run now service target cmd w)
        as (_ & _ & Hgood).
      rewrite Hgood, Hw, Nat2Z.inj_add. f_equal.
      unfold good_of, logins_of. cbn [task_run].
      destruct (verdict run); try reflexivity.
      now rewrite length_map.
    + now rewrite brute_force_service_unsupported.
  - unfold logged. rewrite opened_STATUS, opened_RESULTS. exact Hw.
Qed.

Lemma good_counts_the_result_log_witness :
  logged (world_of (session
                      (env_with "10.0.0.1"
                                (fun _ => mkRun (Exits 0) (Holds marked_output)))
                      "ssh" "root" "pw.txt" "10.0.0.1" (world0 0))).
Proof.
  apply (good_counts_the_result_log
           (env_with "10.0.0.1"
                     (fun _ => mkRun (Exits 0) (Holds marked_output)))
           "ssh" "root" "pw.txt" "10.0.0.1" (world0 0)).
  reflexivity.
Defined.

(** X4.  The operating-system trace of one task: one process is spawned
    unless the spawn itself fails, it is killed only on a timeout, and the
    output file is removed last whenever it exists, on every exit path. *)
Theorem task_trace run now service target username password_list cmd w :
  command (CONFIG w) service target username password_list
          (output_path service target) = Some cmd ->
  syslog (world_of (brute_force_service run now service target
                                        username password_list w))
  = (syslog w ++ events_of run cmd (output_path service target))%list.
Proof.
  intros Hcmd. rewrite (brute_force_service_eq _ _ _ _ _ _ _ _ Hcmd).
  cbn [world_of]. unfold tidied, events_of.
  destruct (file_exists (file run)); cbn [syslog log with_status];
    rewrite settled_syslog, <- ?app_assoc; [reflexivity|].
  now rewrite app_nil_r.
Qed.

Lemma task_trace_witness :
  syslog (world_of (brute_force_service
                      (mkRun TimesOut (Holds marked_output)) "t1"
                      "rdp" "10.0.0.1" "root" "pw.txt" (ready 1)))
  = (syslog (ready 1)
     ++ events_of (mkRun TimesOut (Holds marked_output))
                  ["/usr/bin/ncrack"; "-vv"; "--user"; "root"; "--passwords";
                   "pw.txt"; "rdp://10.0.0.1"; "-oN";
                   "/tmp/bruteforce_rdp_10_0_0_1.txt"]
                  (output_path "rdp" "10.0.0.1"))%list.
Proof.
  apply (task_trace (mkRun TimesOut (Holds marked_output)) "t1" "rdp"
                    "10.0.0.1" "root" "pw.txt").
  reflexivity.
Defined.

(** X5.  No task ever appends to [RESULTS['failures']], changes the
    configuration, the total, the start time or the running flag: after a
    batch of any tasks, for any service, they are as before. *)
Theorem batch_frame service username password_list tasks w :
  let w' := world_of (dispatch service username password_list tasks w) in
  failures (RESULTS w') = failures (RESULTS w) /\
  CONFIG w' = CONFIG w /\
  total (STATUS w') = total (STATUS w) /\
  start_time (STATUS w') = start_time (STATUS w) /\
  running (STATUS w') = running (STATUS w).
Proof.
  cbv zeta.
  apply (dispatch_preserves
           (fun w' => failures (RESULTS w') = failures (RESULTS w) /\
                      CONFIG w' = CONFIG w /\
                      total (STATUS w') = total (STATUS w) /\
                      start_time (STATUS w') = start_time (STATUS w) /\
                      running (STATUS w') = running (STATUS w)));
    [|repeat split].
  intros run now target w0 (Hf & Hc & Ht & Hs & Hr).
  destruct (supported service) eqn:Hsup.
  - destruct (runner_world run now service target username password_list
                           w0 Hsup) as (cmd & _ & ->).
    rewrite tidied_RESULTS, tidied_CONFIG, tidied_total, settled_failures.
    destruct (settled_frame run now service target cmd w0)
      as (Ht' & _ & _ & _ & _ & Hc').
    destruct (settled_clock run now service target cmd w0) as (Hs' & Hr').
    unfold tidied.
    destruct (file_exists (file run));
      cbn [STATUS log with_status incr_tried start_time running];
      rewrite Ht', Hc', Hs', Hr'; repeat split; assumption.
  - rewrite brute_force_service_unsupported by assumption.
    repeat split; assumption.
Qed.

(** ** The notifications of a session *)

Lemma runner_outbox run now service target username password_list w :
  supported service = true ->
  let w' := world_of (brute_force_service run now service target
                                          username password_list w) in
  outbox w'
  = (outbox w ++ if unconfigured w then []
                 else map LoginAlert
                          (logins_of service (mkTask run now target)))%list /\
  unconfigured w' = unconfigured w.
Proof.
  intros Hs. cbv zeta.
  destruct (runner_world run now service target username password_list w Hs)
    as (cmd & _ & ->).
  rewrite tidied_outbox, settled_outbox. split; [reflexivity|].
  unfold unconfigured. rewrite tidied_CONFIG.
  destruct (settled_frame run now service target cmd w)
    as (_ & _ & _ & _ & _ & ->). reflexivity.
Qed.

Lemma batch_outbox service username password_list tasks :
  supported service = true ->
  forall w,
    outbox (world_of (dispatch service username password_list tasks w))
    = (outbox w ++ if unconfigured w then []
                   else map LoginAlert
                            (flat_map (logins_of service) tasks))%list.
Proof.
  intros Hs. induction tasks as [|t rest IH]; intros w.
  - simpl. destruct (unconfigured w); now rewrite app_nil_r.
  - rewrite dispatch_cons, IH.
    destruct (runner_outbox (task_run t) (task_now t) service (task_target t)
                username password_list w Hs) as [-> ->].
    cbn [flat_map]. destruct (unconfigured w).
    + now rewrite !app_nil_r.
    + rewrite <- app_assoc, map_app. destruct t; reflexivity.
Qed.

Lemma opened_outbox env service username password_list content w :
  outbox (opened env service username password_list content w)
  = (outbox w ++
     if unconfigured w then []
     else [AttackStarted service
                         (Z.of_nat (length (stripped_lines content)))
                         username password_list (started env)])%list.
Proof.
  unfold opened, notify, unconfigured. cbv zeta.
  cbn [CONFIG with_status].
  destruct (String.eqb _ _); cbn [outbox post with_status];
    [now rewrite app_nil_r|reflexivity].
Qed.

Lemma closed_outbox env w :
  outbox (closed env w)
  = (outbox w ++
     if unconfigured w then []
     else [final_msg (finished env - start_time (STATUS w))%Q
                     (with_status (set_running false) w)])%list.
Proof.
  unfold closed, notify, unconfigured. cbv zeta.
  cbn [CONFIG with_status].
  destruct (String.eqb _ _); cbn [outbox post with_status];
    [now rewrite app_nil_r|reflexivity].
Qed.

(** X6.  With the placeholder token left in [CONFIG], a whole session
    posts nothing: the start notice, every login alert and the final
    report are only printed. *)
Theorem unconfigured_session_posts_nothing
        env service username password_list content w :
  unconfigured w = true ->
  outbox (world_of (session env service username password_list content w))
  = outbox w.
Proof.
  intros Hu. rewrite session_world, saved_outbox, closed_outbox.
  assert (Hkeep : forall tasks w0,
             unconfigured w0 = true ->
             unconfigured (world_of (dispatch service username password_list
                                              tasks w0)) = true /\
             outbox (world_of (dispatch service username password_list
                                        tasks w0)) = outbox w0).
  { intros tasks w0 H0.
    apply (dispatch_preserves
             (fun w' => unconfigured w' = true /\ outbox w' = outbox w0));
      [|split; [assumption|reflexivity]].
    intros run now target w1 [Hu1 Ho1].
    destruct (supported service) eqn:Hs.
    - destruct (runner_outbox run now service target username password_list
                              w1 Hs) as [Ho Hc].
      rewrite Ho, Hc, Hu1, app_nil_r. split; [reflexivity|assumption].
    - rewrite brute_force_service_unsupported by assumption.
      split; assumption. }
  assert (Hopen : unconfigured (opened env service username password_list
                                       content w) = true).
  { unfold unconfigured. now rewrite opened_CONFIG. }
  destruct (Hkeep (schedule_from env 0 (stripped_lines content)) _ Hopen)
    as [Hu' Ho'].
  rewrite Hu', Ho', app_nil_r, opened_outbox, Hu. now rewrite app_nil_r.
Qed.

Lemma unconfigured_session_posts_nothing_witness :
  outbox (world_of (session
                      (env_with "10.0.0.1"
                                (fun _ => mkRun (Exits 0) (Holds marked_output)))
                      "ssh" "root" "pw.txt" "10.0.0.1" (world0 0)))
  = outbox (world0 0).
Proof.
  apply (unconfigured_session_posts_nothing
           (env_with "10.0.0.1"
                     (fun _ => mkRun (Exits 0) (Holds marked_output)))
           "ssh" "root" "pw.txt" "10.0.0.1" (world0 0)).
  reflexivity.
Defined.

Lemma session_outbox env service username password_list content w :
  unconfigured w = false ->
  supported service = true ->
  let n := Z.of_nat (length (stripped_lines content)) in
  let tasks := schedule_from env 0 (stripped_lines content) in
  let w' := world_of (session env service username password_list content w) in
  exists g b i e none,
    outbox w'
    = (outbox w
       ++ AttackStarted service n username password_list (started env)
       :: map LoginAlert (flat_map (logins_of service) tasks)
       ++ [AttackCompleted n g b i e (success (RESULTS w')) none])%list.
Proof.
  intros Hu Hs. cbv zeta.
  rewrite session_world, saved_outbox, saved_RESULTS, closed_RESULTS,
    closed_outbox.
  set (w0 := opened env service username password_list content w).
  set (tasks := schedule_from env 0 (stripped_lines content)).
  set (w3 := world_of (dispatch service username password_list tasks w0)).
  assert (Hu0 : unconfigured w0 = false).
  { unfold unconfigured, w0. now rewrite opened_CONFIG. }
  destruct (dispatch_supported service username password_list tasks Hs w0)
    as (w3' & Hrun & _ & Htot & Hcfg).
  assert (Hw3 : w3 = w3') by (unfold w3; now rewrite Hrun).
  assert (Hu3 : unconfigured w3 = false).
  { unfold unconfigured. rewrite Hw3, Hcfg. exact Hu0. }
  rewrite Hu3. unfold w3 at 1. rewrite batch_outbox by assumption.
  rewrite Hu0. unfold w0 at 1. rewrite opened_outbox, Hu.
  unfold final_msg. cbn [STATUS RESULTS with_status set_running total].
  rewrite Hw3, Htot.
  unfold w0 at 1. rewrite opened_STATUS. cbn [set_total total].
  do 5 eexists. rewrite <- !app_assoc. reflexivity.
Qed.

Lemma session_success env service username password_list content w :
  supported service = true ->
  success (RESULTS (world_of (session env service username password_list
                                      content w)))
  = (success (RESULTS w)
     ++ flat_map (logins_of service)
                 (schedule_from env 0 (stripped_lines content)))%list.
Proof.
  intros Hs. rewrite session_world, saved_RESULTS, closed_RESULTS.
  rewrite batch_success by assumption. now rewrite opened_RESULTS.
Qed.

Lemma own_posts_alerts (logins : list Login) :
  own_posts (map LoginAlert logins) = map LoginAlert logins.
Proof.
  unfold own_posts. induction logins as [|r rest IH]; simpl;
    [reflexivity|now rewrite IH].
Qed.

(** X7.  With a token configured and a supported service, the messages a
    session has sent by its end, the status updates of the monitor set
    aside, are these and no others, in whatever order the tasks complete:
    the start notice with the number of targets, one alert per credential
    found, and the final report, whose total is the number of targets and
    whose list is the result log as it stands; the result log holds the
    entries it had and one entry per credential found. *)
Theorem session_notifications env service username password_list content w :
  unconfigured w = false ->
  supported service = true ->
  let n := Z.of_nat (length (stripped_lines content)) in
  let tasks := schedule_from env 0 (stripped_lines content) in
  let w' := world_of (session env service username password_list content w) in
  (exists g b i e none,
      Permutation
        (own_posts (outbox w'))
        (own_posts (outbox w)
         ++ AttackStarted service n username password_list (started env)
         :: map LoginAlert (flat_map (logins_of service) tasks)
         ++ [AttackCompleted n g b i e (success (RESULTS w')) none])) /\
  Permutation (success (RESULTS w'))
              (success (RESULTS w) ++ flat_map (logins_of service) tasks).
Proof.
  intros Hu Hs. cbv zeta. split.
  - destruct (session_outbox env service username password_list content w
                Hu Hs) as (g & b & i & e & none & Hout).
    cbv zeta in Hout. exists g, b, i, e, none. rewrite Hout.
    unfold own_posts at 1. rewrite filter_app. cbn [filter is_progress negb].
    rewrite filter_app. fold (own_posts (outbox w)).
    fold (own_posts (map LoginAlert
                         (flat_map (logins_of service)
                                   (schedule_from env 0
                                                  (stripped_lines content))))).
    rewrite own_posts_alerts. reflexivity.
  - rewrite session_success by assumption. reflexivity.
Qed.

Lemma session_notifications_witness :
  let w := with_token (world0 0) in
  let env := env_with "10.0.0.1"
                      (fun _ => mkRun (Exits 0) (Holds marked_output)) in
  let w' := world_of (session env "ssh" "root" "pw.txt" "10.0.0.1" w) in
  Permutation (success (RESULTS w'))
              (success (RESULTS w)
               ++ flat_map (logins_of "ssh")
                           (schedule_from env 0 (stripped_lines "10.0.0.1"))).
Proof.
  apply (session_notifications
           (env_with "10.0.0.1"
                     (fun _ => mkRun (Exits 0) (Holds marked_output)))
           "ssh" "root" "pw.txt" "10.0.0.1" (with_token (world0 0)));
    reflexivity.
Defined.

(** ** The analysis of an output, line by line *)

Lemma found_app (a b : string) :
  found (a ++ String LF b) = (found a ++ found b)%list.
Proof. unfold found, found_in. now rewrite split_app, flat_map_app. Qed.

(** X8.  Analysing two outputs joined by a newline is analysing the first
    and then the second: no credential is lost or invented at the seam,
    and the order of the entries is the order of the lines. *)
Theorem analysis_of_joined_outputs now a b service target w :
  analyze_hydra_output now (a ++ String LF b) service target w
  = (analyze_hydra_output now a service target ;;
     analyze_hydra_output now b service target) w.
Proof.
  unfold bind. rewrite !analyze_hydra_output_eq, found_app, fold_left_app.
  reflexivity.
Qed.

Lemma tokens_give_login_tokens (line : string) :
  In "login:" (split_ws line) ->
  In "password:" (split_ws line) ->
  has_login_tokens line = true.
Proof.
  intros Hl Hp. unfold has_login_tokens.
  now rewrite (token_contains _ _ Hl), (token_contains _ _ Hp).
Qed.

(** X9.  A line whose tokens read [... login: u ... password: p ...], the
    two keys not occurring earlier, is recorded as the login [(u, p)] for
    the target: one entry appended, [good] raised by one. *)
Theorem login_line_is_recorded
        now service target line pre u mid p post w :
  split_ws line
  = (pre ++ "login:" :: u :: mid ++ "password:" :: p :: post)%list ->
  ~ In "login:" pre ->
  ~ In "password:" (pre ++ "login:" :: u :: mid)%list ->
  is_success_line line = true /\
  credentials line = Some (u, p) /\
  record_line now service target line w
  = Return tt (record now service target w (u, p)).
Proof.
  intros Hparts Hl Hp.
  assert (Hlog : has_login_tokens line = true).
  { apply tokens_give_login_tokens; rewrite Hparts.
    - apply in_or_app. right. now left.
    - apply in_or_app. right. right. right. apply in_or_app. right. now left. }
  assert (Hcred : credentials line = Some (u, p)).
  { unfold credentials, after. rewrite Hlog, Hparts.
    rewrite (index_first "login:" pre _ Hl).
    rewrite nth_error_after. cbn [nth_error].
    replace (pre ++ "login:" :: u :: mid ++ "password:" :: p :: post)%list
      with ((pre ++ "login:" :: u :: mid) ++ "password:" :: p :: post)%list
      by (now rewrite <- app_assoc).
    rewrite (index_first "password:" _ _ Hp).
    rewrite nth_error_after. reflexivity. }
  split; [|split].
  - unfold is_success_line. now rewrite Hlog.
  - exact Hcred.
  - now rewrite record_line_eq, Hcred.
Qed.

Lemma login_line_is_recorded_witness :
  is_success_line login_line = true /\
  credentials login_line = Some ("root", "toor") /\
  record_line "t1" "ssh" "10.0.0.1" login_line (ready 1)
  = Return tt (record "t1" "ssh" "10.0.0.1" (ready 1) ("root", "toor")).
Proof.
  apply (login_line_is_recorded "t1" "ssh" "10.0.0.1" login_line
           ["[22][ssh]"; "host:"; "10.0.0.1"] "root" [] "toor" []).
  - reflexivity.
  - intros [H|[H|[H|[]]]]; discriminate.
  - intros [H|[H|[H|[H|[H|[]]]]]]; discriminate.
Defined.

(** X10.  A line that contains the texts [login:] and [password:] but in
    which one of them is not a token by itself, or is the last token, is
    passed over: nothing is recorded, nothing is raised. *)
Theorem unreadable_login_line_is_skipped now service target line w :
  has_login_tokens line = true ->
  ~ In "login:" (split_ws line) \/
  ~ In "password:" (split_ws line) \/
  (exists pre, split_ws line = (pre ++ ["login:"])%list /\
               ~ In "login:" pre) \/
  (exists pre, split_ws line = (pre ++ ["password:"])%list /\
               ~ In "password:" pre) ->
  record_line now service target line w = Return tt w.
Proof.
  intros Hlog Hcase.
  assert (Hcred : credentials line = None).
  { unfold credentials, after. rewrite Hlog.
    destruct Hcase as [H|[H|[(pre & Hparts & H)|(pre & Hparts & H)]]].
    - now rewrite (index_absent _ _ H).
    - rewrite (index_absent "password:" _ H).
      destruct (index "login:" (split_ws line)) as [i|]; [|reflexivity].
      destruct (nth_error (split_ws line) (i + 1)); reflexivity.
    - rewrite Hparts, (index_first "login:" pre [] H), nth_error_after.
      reflexivity.
    - rewrite Hparts, (index_first "password:" pre [] H), nth_error_after.
      simpl.
      destruct (index "login:" (pre ++ ["password:"])) as [i|];
        [|reflexivity].
      destruct (nth_error (pre ++ ["password:"]) (i + 1)); reflexivity. }
  now rewrite record_line_eq, Hcred.
Qed.

Lemma unreadable_login_line_is_skipped_witness :
  record_line "t1" "ssh" "10.0.0.1" "host: 10.0.0.1 login:root password:toor"
              (ready 1)
  = Return tt (ready 1).
Proof.
  apply (unreadable_login_line_is_skipped "t1" "ssh" "10.0.0.1"
           "host: 10.0.0.1 login:root password:toor" (ready 1)).
  - vm_compute. reflexivity.
  - left. intros H. vm_compute in H.
    destruct H as [H|[H|[H|[H|[]]]]]; discriminate.
Defined.

(** X11.  Without the login tokens, a line with [[ssh]] and [host:] is read
    by position: when [[ssh]] is a token by itself, the third and the fifth
    token after it are taken as user name and password; when it is only
    part of a token, as in [[22][ssh]], the line is passed over. *)
Theorem ssh_pattern_reads_by_position now service target line w :
  has_login_tokens line = false ->
  (forall pre t1 t2 u t4 p post,
      split_ws line = (pre ++ "[ssh]" :: t1 :: t2 :: u :: t4 :: p :: post)%list ->
      ~ In "[ssh]" pre ->
      record_line now service target line w
      = Return tt (record now service target w (u, p))) /\
  (~ In "[ssh]" (split_ws line) ->
   record_line now service target line w = Return tt w).
Proof.
  intros Hlog. split.
  - intros pre t1 t2 u t4 p post Hparts Hnot.
    rewrite record_line_eq. unfold credentials, after.
    rewrite Hlog, Hparts, (index_first "[ssh]" pre _ Hnot).
    rewrite !nth_error_after. reflexivity.
  - intros Hnot. rewrite record_line_eq. unfold credentials, after.
    now rewrite Hlog, (index_absent _ _ Hnot).
Qed.

Lemma ssh_pattern_reads_by_position_witness :
  record_line "t1" "ssh" "10.0.0.1" "[22][ssh] host: 10.0.0.1 user root"
              (ready 1)
  = Return tt (ready 1).
Proof.
  destruct (ssh_pattern_reads_by_position
              "t1" "ssh" "10.0.0.1" "[22][ssh] host: 10.0.0.1 user root"
              (ready 1) eq_refl) as [_ Hskip].
  apply Hskip. intros H. vm_compute in H.
  destruct H as [H|[H|[H|[H|[H|[]]]]]]; discriminate.
Defined.

(** ** The progress reporter, tick by tick *)




(** X13.  With a token configured and a non-zero total, a pass of the
    reporter posts the four counters and the total as they stand, with an
    elapsed time of [now - start_time]; the remaining-time estimate is not
    negative when the elapsed time is not, and is zero once every target
    has been tried; the completion figure lies between 0 and 100 while
    [0 <= tried <= total] and is 100 when [tried = total]. *)
Theorem status_update_figures (now : Q) (w : World) :
  unconfigured w = false ->
  total (STATUS w) <> 0 ->
  let s := STATUS w in
  exists remaining completion,
    status_tick now w
    = Return tt (post (StatusUpdate (good s) (bad s) (na s) (tried s)
                                    (total s) (now - start_time s)%Q
                                    remaining completion) w) /\
    ((0 <= now - start_time s)%Q -> (0 <= remaining)%Q) /\
    (total s <= tried s -> (remaining == 0)%Q) /\
    (0 <= tried s <= total s ->
     (0 <= completion)%Q /\ (completion <= inject_Z 100)%Q) /\
    (tried s = total s -> (completion == inject_Z 100)%Q).
Proof.
  intros Hu Htot. cbv zeta.
  unfold status_tick, bind, gets.
  destruct (Z.eqb_spec (total (STATUS w)) 0) as [E|_]; [contradiction|].
  unfold ret. rewrite send_telegram_message_eq. unfold notify.
  unfold unconfigured in Hu. rewrite Hu.
  do 2 eexists. split; [reflexivity|].
  assert (Hmax : (0 < inject_Z (Z.max 1 (tried (STATUS w))))%Q).
  { change 0%Q with (inject_Z 0). rewrite <- Zlt_Qlt. lia. }
  split; [|split; [|split]].
  - intros He. apply Qmult_le_0_compat.
    + apply Qle_shift_div_l; [assumption|]. now rewrite Qmult_0_l.
    + change 0%Q with (inject_Z 0). rewrite <- Zle_Qle. lia.
  - intros Hdone.
    replace (Z.max 0 (total (STATUS w) - tried (STATUS w))) with 0 by lia.
    apply Qmult_0_r.
  - intros [H0 H1].
    assert (Hpos : (0 < inject_Z (total (STATUS w)))%Q).
    { change 0%Q with (inject_Z 0). rewrite <- Zlt_Qlt. lia. }
    split.
    + apply Qmult_le_0_compat; [|discriminate].
      apply Qle_shift_div_l; [assumption|]. rewrite Qmult_0_l.
      change 0%Q with (inject_Z 0). rewrite <- Zle_Qle. assumption.
    + rewrite <- (Qmult_1_l (inject_Z 100)) at 2.
      apply Qmult_le_compat_r; [|discriminate].
      apply Qle_shift_div_r; [assumption|]. rewrite Qmult_1_l.
      rewrite <- Zle_Qle. assumption.
  - intros Heq. rewrite Heq. unfold Qdiv. rewrite Qmult_inv_r.
    + apply Qmult_1_l.
    + change 0%Q with (inject_Z 0). rewrite inject_Z_injective. assumption.
Qed.

Lemma status_update_figures_witness :
  let w := with_token (ready 3) in
  let s := STATUS w in
  exists remaining completion,
    status_tick 60%Q w
    = Return tt (post (StatusUpdate (good s) (bad s) (na s) (tried s)
                                    (total s) (60 - start_time s)%Q
                                    remaining completion) w) /\
    ((0 <= 60 - start_time s)%Q -> (0 <= remaining)%Q) /\
    (total s <= tried s -> (remaining == 0)%Q) /\
    (0 <= tried s <= total s ->
     (0 <= completion)%Q /\ (completion <= inject_Z 100)%Q) /\
    (tried s = total s -> (completion == inject_Z 100)%Q).
Proof.
  apply (status_update_figures 60%Q (with_token (ready 3))).
  - reflexivity.
  - discriminate.
Defined.

(** ** The target list *)

Lemma rstrip_idempotent (s : string) : rstrip (rstrip s) = rstrip s.
Proof.
  induction s as [|c s' IH]; [reflexivity|].
  cbn [rstrip]. destruct (rstrip s') as [|c' r] eqn:Hr.
  - destruct (is_space c) eqn:Hc; [reflexivity|].
    cbn [rstrip]. now rewrite Hc.
  - cbn [rstrip] in *. rewrite IH. reflexivity.
Qed.

Lemma lstrip_head (s : string) :
  match lstrip s with
  | EmptyString => True
  | String c _ => is_space c = false
  end.
Proof.
  induction s as [|c s' IH]; [exact I|].
  cbn [lstrip]. destruct (is_space c) eqn:Hc; [exact IH|exact Hc].
Qed.

Lemma rstrip_keeps_head (c : ascii) (s : string) :
  is_space c = false -> exists r, rstrip (String c s) = String c r.
Proof.
  intros Hc. cbn [rstrip]. destruct (rstrip s) as [|c' r].
  - rewrite Hc. eauto.
  - eauto.
Qed.

Lemma strip_idempotent (s : string) : strip (strip s) = strip s.
Proof.
  unfold strip. pose proof (lstrip_head s) as Hh.
  destruct (lstrip s) as [|c x] eqn:Hl.
  - reflexivity.
  - destruct (rstrip_keeps_head c x Hh) as [r Hr]. rewrite Hr.
    cbn [lstrip]. rewrite Hh, <- Hr. apply rstrip_idempotent.
Qed.

Lemma lstrip_blank (s : string) :
  lstrip s = "" <-> forallb is_space (list_ascii_of_string s) = true.
Proof.
  induction s as [|c s' IH]; simpl; [tauto|].
  destruct (is_space c); simpl; [exact IH|]. split; discriminate.
Qed.

(** A line strips to nothing exactly when all its characters are white
    space. *)
Lemma strip_blank (s : string) :
  strip s = "" <-> forallb is_space (list_ascii_of_string s) = true.
Proof.
  rewrite <- lstrip_blank. unfold strip. split.
  - intros H. pose proof (lstrip_head s) as Hh.
    destruct (lstrip s) as [|c x]; [reflexivity|].
    destruct (rstrip_keeps_head c x Hh) as [r Hr]. rewrite Hr in H.
    discriminate.
  - intros ->. reflexivity.
Qed.

Lemma filter_strip (lines : list string) :
  filter (fun l => negb (String.eqb l "")) (map strip lines)
  = map strip (filter (fun l => negb (String.eqb (strip l) "")) lines).
Proof.
  induction lines as [|l rest IH]; simpl; [reflexivity|].
  destruct (String.eqb (strip l) ""); simpl; now rewrite IH.
Qed.

(** X14.  The targets [main] works on are exactly the stripped forms of
    the lines of the targets file that hold a character other than white
    space, in file order: every such line is kept, lines of white space
    only are dropped, each target is non-empty with no white space at
    either end, and [total] is set to their number. *)
Theorem targets_are_stripped_lines (content : string) (w : World) :
  exists targets w',
    load_targets content w = Return targets w' /\
    total (STATUS w') = Z.of_nat (length targets) /\
    targets
    = map strip
          (filter (fun l => negb (forallb is_space (list_ascii_of_string l)))
                  (split LF content)) /\
    (forall line,
        In line (split LF content) ->
        forallb is_space (list_ascii_of_string line) = false ->
        In (strip line) targets) /\
    (length targets <= length (split LF content))%nat /\
    forall t, In t targets ->
              t <> "" /\ strip t = t /\
              exists line, In line (split LF content) /\ t = strip line.
Proof.
  assert (Heq : stripped_lines content
                = map strip
                      (filter (fun l => negb (forallb is_space
                                                (list_ascii_of_string l)))
                              (split LF content))).
  { unfold stripped_lines. rewrite filter_strip. f_equal.
    apply filter_ext. intros l. f_equal.
    destruct (String.eqb_spec (strip l) "") as [E|E];
      destruct (forallb is_space (list_ascii_of_string l)) eqn:Hb;
      try reflexivity.
    - apply strip_blank in E. congruence.
    - apply strip_blank in Hb. contradiction. }
  exists (stripped_lines content). eexists.
  split; [apply load_targets_eq|]. split; [reflexivity|].
  split; [exact Heq|]. split; [|split].
  - intros line Hin Hb. rewrite Heq. apply in_map, filter_In.
    split; [assumption|]. now rewrite Hb.
  - unfold stripped_lines.
    rewrite <- (length_map strip (split LF content)). apply filter_length_le.
  - intros t Hin. unfold stripped_lines in Hin.
    apply filter_In in Hin as [Hin Hne].
    apply in_map_iff in Hin as (line & <- & Hline).
    split; [|split].
    + intros E. rewrite E in Hne. discriminate.
    + apply strip_idempotent.
    + exists line. split; [assumption|reflexivity].
Qed.

(** ** The service name *)

Lemma lower_upper_char (c : ascii) : lower_char (upper_char c) = lower_char c.
Proof.
  destruct c as [[] [] [] [] [] [] [] []]; reflexivity.
Qed.

Lemma lower_lower_char (c : ascii) : lower_char (lower_char c) = lower_char c.
Proof.
  destruct c as [[] [] [] [] [] [] [] []]; reflexivity.
Qed.

Lemma lower_upper (s : string) : lower (upper s) = lower s.
Proof.
  unfold lower, upper. induction s as [|c s' IH]; simpl; [reflexivity|].
  now rewrite lower_upper_char, IH.
Qed.

Lemma lower_lower (s : string) : lower (lower s) = lower s.
Proof.
  unfold lower. induction s as [|c s' IH]; simpl; [reflexivity|].
  now rewrite lower_lower_char, IH.
Qed.

(** X15.  For a service name of ASCII characters the match is without
    regard to letter case: the name, its upper-case and its lower-case
    form are all supported or all unsupported, and for a supported one the
    same tool is run with the same arguments for the same output file. *)
Theorem service_name_case_is_ignored
        c service target username password_list output_file :
  ascii_only service = true ->
  supported (upper service) = supported service /\
  supported (lower service) = supported service /\
  command c (upper service) target username password_list output_file
  = command c service target username password_list output_file /\
  command c (lower service) target username password_list output_file
  = command c service target username password_list output_file.
Proof.
  intros _. unfold supported, command. rewrite lower_upper, lower_lower.
  repeat split.
Qed.

Lemma service_name_case_is_ignored_witness :
  supported (upper "Ssh") = supported "Ssh" /\
  supported (lower "Ssh") = supported "Ssh" /\
  command CONFIG0 (upper "Ssh") "10.0.0.1" "root" "pw.txt" "out.txt"
  = command CONFIG0 "Ssh" "10.0.0.1" "root" "pw.txt" "out.txt" /\
  command CONFIG0 (lower "Ssh") "10.0.0.1" "root" "pw.txt" "out.txt"
  = command CONFIG0 "Ssh" "10.0.0.1" "root" "pw.txt" "out.txt".
Proof.
  apply (service_name_case_is_ignored CONFIG0 "Ssh" "10.0.0.1" "root"
                                      "pw.txt" "out.txt").
  reflexivity.
Defined.

(** ** The trace of a batch *)

Lemma runner_trace run now service target username password_list w :
  syslog (world_of (brute_force_service run now service target
                                        username password_list w))
  = (syslog w
     ++ trace_of (CONFIG w) service username password_list
                 (mkTask run now target))%list /\
  CONFIG (world_of (brute_force_service run now service target
                                        username password_list w))
  = CONFIG w.
Proof.
  unfold trace_of. cbn [task_run task_target].
  destruct (command (CONFIG w) service target username password_list
                    (output_path service target)) as [cmd|] eqn:Hcmd.
  - rewrite (brute_force_service_eq _ _ _ _ _ _ _ _ Hcmd). cbn [world_of].
    rewrite tidied_CONFIG. split.
    + unfold tidied, events_of.
      destruct (file_exists (file run)); cbn [syslog log with_status];
        rewrite settled_syslog, <- ?app_assoc; [reflexivity|].
      now rewrite app_nil_r.
    + now destruct (settled_frame run now service target cmd w)
        as (_ & _ & _ & _ & _ & ->).
  - unfold brute_force_service, bind, gets. rewrite Hcmd.
    cbn [world_of ret]. now rewrite app_nil_r.
Qed.

Lemma batch_syslog service username password_list tasks :
  forall w,
    syslog (world_of (dispatch service username password_list tasks w))
    = (syslog w
       ++ flat_map (trace_of (CONFIG w) service username password_list)
                   tasks)%list.
Proof.
  induction tasks as [|t rest IH]; intros w.
  - simpl. now rewrite app_nil_r.
  - rewrite dispatch_cons.
    destruct (runner_trace (task_run t) (task_now t) service (task_target t)
                username password_list w) as [Hs Hc].
    rewrite IH, Hs, Hc. cbn [flat_map].
    rewrite <- app_assoc. destruct t; reflexivity.
Qed.

Lemma trace_spawns_at_most_once c service username password_list t :
  (length (spawned (trace_of c service username password_list t)) <= 1)%nat.
Proof.
  unfold spawned, trace_of.
  destruct (command _ _ _ _ _ _) as [cmd|]; [|simpl; lia].
  unfold events_of. rewrite filter_app, length_app.
  destruct (proc (task_run t)); destruct (file_exists (file (task_run t)));
    simpl; lia.
Qed.

(** X23.  Whatever the order in which the events of different tasks fall,
    the operating-system events of a batch are those of its tasks, each
    task's built from the same configuration, and nothing else; every task
    spawns at most one process, so a batch spawns at most as many
    processes as it has tasks. *)
Theorem batch_trace service username password_list tasks w :
  let w' := world_of (dispatch service username password_list tasks w) in
  Permutation
    (syslog w')
    (syslog w
     ++ flat_map (trace_of (CONFIG w) service username password_list)
                 tasks) /\
  (length (spawned (syslog w'))
   <= length (spawned (syslog w)) + length tasks)%nat.
Proof.
  cbv zeta. rewrite batch_syslog. split; [reflexivity|].
  unfold spawned at 1. rewrite filter_app, length_app.
  fold (spawned (syslog w)). apply Nat.add_le_mono_l.
  induction tasks as [|t rest IH]; [simpl; lia|].
  cbn [flat_map length]. rewrite filter_app, length_app.
  pose proof (trace_spawns_at_most_once (CONFIG w) service username
                password_list t) as Hone.
  unfold spawned in Hone. lia.
Qed.

Lemma session_tried_le_total_witness :
  let w' := world_of (session
                        (env_with "10.0.0.1"
                                  (fun _ => mkRun TimesOut Absent))
                        "ssh" "root" "pw.txt" "10.0.0.1" (world0 0)) in
  total (STATUS w') = Z.of_nat (length (stripped_lines "10.0.0.1")) /\
  tried (STATUS w') = (if supported "ssh" then total (STATUS w') else 0) /\
  tried (STATUS w') <= total (STATUS w').
Proof.
  apply (session_tried_le_total
           (env_with "10.0.0.1" (fun _ => mkRun TimesOut Absent))
           "ssh" "root" "pw.txt" "10.0.0.1" (world0 0)).
  reflexivity.
Defined.

(** ** The final report of a session *)

Lemma batch_keeps_config service username password_list tasks w :
  CONFIG (world_of (dispatch service username password_list tasks w))
  = CONFIG w.
Proof.
  apply (dispatch_preserves (fun w' => CONFIG w' = CONFIG w));
    [|reflexivity].
  intros run now target w0 H0.
  now rewrite (proj2 (runner_trace run now service target username
                                   password_list w0)).
Qed.

(** With a token configured, the last message of a session is the final
    report, and its list is the result log as it stands at the end. *)
Lemma session_final_report env service username password_list content w :
  unconfigured w = false ->
  let w' := world_of (session env service username password_list content w) in
  exists rest n g b i e none,
    outbox w'
    = (rest ++ [AttackCompleted n g b i e (success (RESULTS w')) none])%list.
Proof.
  intros Hu. cbv zeta.
  rewrite session_world, saved_outbox, saved_RESULTS, closed_RESULTS,
    closed_outbox.
  set (w3 := world_of (dispatch _ _ _ _ _)).
  assert (Hu3 : unconfigured w3 = false).
  { unfold unconfigured, w3. rewrite batch_keeps_config, opened_CONFIG.
    exact Hu. }
  rewrite Hu3. unfold final_msg. cbn [RESULTS with_status].
  do 7 eexists. reflexivity.
Qed.

(** A session never drops an entry of the result log. *)
Lemma session_keeps_log env service username password_list content w :
  incl (success (RESULTS w))
       (success (RESULTS (world_of (session env service username
                                            password_list content w)))).
Proof.
  rewrite session_world, saved_RESULTS, closed_RESULTS.
  apply (dispatch_preserves
           (fun w' => incl (success (RESULTS w)) (success (RESULTS w')))).
  - intros run now target w0 H0.
    destruct (supported service) eqn:Hs.
    + destruct (runner_world run now service target username password_list
                             w0 Hs) as (cmd & _ & ->).
      rewrite tidied_RESULTS, settled_success.
      now apply incl_appl.
    + now rewrite brute_force_service_unsupported.
  - rewrite opened_RESULTS. apply incl_refl.
Qed.

End BruteMore.

(** * Further properties of the scan driver *)

Module ScanMore.

Import Text Scan ScanViews ScanCases ScanMoreViews ScanFacts EntryViews
       EntryFacts.
Local Open Scope py_scope.

(** ** The candidates of any report *)

Lemma collect_raises (item : Item) (results : list Candidate) :
  well_formed item = false ->
  exists e, collect item results = Raise e results.
Proof.
  unfold well_formed, first_candidate, has_both, collect, bind, lookup_or.
  destruct (ip item) as [a|]; [|discriminate].
  destruct (ports item) as [[|p ps]|]; simpl; try discriminate.
  - intros _. eexists. reflexivity.
  - destruct (port p) as [n|]; simpl; [discriminate|].
    intros _. eexists. reflexivity.
Qed.

Lemma collect_all_readable (report : list Item) :
  forall results,
    world_of (collect_all report results)
    = (results ++ candidates_of (readable report))%list.
Proof.
  induction report as [|item rest IH]; intros results.
  - simpl. now rewrite app_nil_r.
  - cbn [collect_all readable]. unfold bind.
    destruct (well_formed item) eqn:Hwf.
    + rewrite collect_eq by assumption. rewrite IH.
      unfold candidates_of. simpl. now rewrite <- app_assoc.
    + destruct (collect_raises item results Hwf) as [e ->].
      simpl. now rewrite app_nil_r.
Qed.

Lemma masscan_ips_readable (report : list Item) :
  masscan_ips (ScanExits 0 (Some report)) = candidates_of (readable report).
Proof.
  unfold masscan_ips, try_finally, try_except, scan_body.
  change (0 =? 0) with true. cbv iota. unfold bind, lookup_or, ret.
  unfold try_except.
  pose proof (collect_all_readable report []) as H.
  destruct (collect_all report []) as [u r|e r]; simpl in *.
  - exact H.
  - destruct (exn_eqb e JSONDecodeError); simpl; exact H.
Qed.

(** X16.  One entry on which the loop raises (both keys present, but an
    empty port list or a first port without a ['port']) ends the loop: the
    result is exactly the candidates of the entries before it, one per
    entry with both keys, each with the first port of its list; the
    entries after it are lost, whatever they hold. *)
Theorem malformed_entry_cuts_the_report (before after : list Item) (bad : Item) :
  forallb well_formed before = true ->
  well_formed bad = false ->
  masscan_ips (ScanExits 0 (Some (before ++ bad :: after)%list))
  = candidates_of before /\
  length (candidates_of before) = length (filter has_both before) /\
  (forall item a p rest n,
      In item before ->
      ip item = Some a ->
      ports item = Some (p :: rest) ->
      port p = Some n ->
      surfaced (masscan_ips (ScanExits 0 (Some (before ++ bad :: after)%list)))
               a n).
Proof.
  intros Hb Hbad.
  assert (Hcut : masscan_ips (ScanExits 0 (Some (before ++ bad :: after)%list))
                 = candidates_of before).
  { rewrite masscan_ips_readable. f_equal. clear - Hb Hbad.
    induction before as [|item rest IH]; simpl.
    - now rewrite Hbad.
    - simpl in Hb. apply andb_true_iff in Hb as [Hi Hr].
      rewrite Hi. now rewrite IH. }
  split; [exact Hcut|]. split; [now apply candidates_of_length|].
  intros item a p rest n Hin Hip Hports Hport. rewrite Hcut.
  unfold surfaced, candidates_of. apply in_flat_map.
  exists item. split; [assumption|].
  unfold first_candidate. rewrite Hip, Hports, Hport. now left.
Qed.

Lemma malformed_entry_cuts_the_report_witness :
  masscan_ips
    (ScanExits 0
       (Some ([mkItem (Some "10.0.0.1") (Some [mkPort (Some 22)])]
              ++ mkItem (Some "10.0.0.2") (Some [])
              :: [mkItem (Some "10.0.0.3") (Some [mkPort (Some 22)])])%list))
  = [mkCandidate "10.0.0.1" 22 "open"].
Proof.
  destruct (malformed_entry_cuts_the_report
              [mkItem (Some "10.0.0.1") (Some [mkPort (Some 22)])]
              [mkItem (Some "10.0.0.3") (Some [mkPort (Some 22)])]
              (mkItem (Some "10.0.0.2") (Some [])) eq_refl eq_refl)
    as (Hcut & _ & _).
  exact Hcut.
Defined.

Lemma readable_incl (report : list Item) (item : Item) :
  In item (readable report) -> In item report.
Proof.
  induction report as [|x rest IH]; simpl; [tauto|].
  destruct (well_formed x); simpl; [|tauto].
  intros [H|H]; [now left|right; now apply IH].
Qed.

(** X17.  Every candidate handed to the verification stage comes from the
    report: the scan ended with status 0, its output parsed, and some entry
    of it has the candidate's address and, as the first element of its port
    list, the candidate's port; the status recorded is always ['open']. *)
Theorem candidates_come_from_the_report (run : ScanRun) (c : Candidate) :
  In c (masscan_ips run) ->
  cand_status c = "open" /\
  exists report item p rest,
    run = ScanExits 0 (Some report) /\
    In item report /\
    ip item = Some (cand_ip c) /\
    ports item = Some (p :: rest) /\
    port p = Some (cand_port c).
Proof.
  intros Hin.
  destruct run as [e| |rc [report|]];
    try (rewrite masscan_ips_failed in Hin by exact I; contradiction).
  - destruct rc as [|rc|rc];
      try (rewrite masscan_ips_failed in Hin by exact I; contradiction).
    rewrite masscan_ips_readable in Hin. unfold candidates_of in Hin.
    apply in_flat_map in Hin as (item & Hitem & Hc).
    apply readable_incl in Hitem.
    unfold first_candidate in Hc.
    destruct (ip item) as [a|] eqn:Hip; [|contradiction].
    destruct (ports item) as [[|p rest]|] eqn:Hports; try contradiction.
    destruct (port p) as [n|] eqn:Hport; [|contradiction].
    destruct Hc as [<-|[]]. split; [reflexivity|].
    exists report, item, p, rest. repeat split; assumption.
  - destruct rc as [|rc|rc];
      rewrite masscan_ips_failed in Hin by exact I; contradiction.
Qed.

Lemma candidates_come_from_the_report_witness :
  cand_status (mkCandidate "10.0.0.1" 22 "open") = "open" /\
  exists report item p rest,
    ScanExits 0 (Some two_port_report) = ScanExits 0 (Some report) /\
    In item report /\
    ip item = Some (cand_ip (mkCandidate "10.0.0.1" 22 "open")) /\
    ports item = Some (p :: rest) /\
    port p = Some (cand_port (mkCandidate "10.0.0.1" 22 "open")).
Proof.
  apply (candidates_come_from_the_report
           (ScanExits 0 (Some two_port_report))
           (mkCandidate "10.0.0.1" 22 "open")).
  vm_compute. left. reflexivity.
Defined.

(** X18.  Unless the scan ends with status 0 and an output that parses,
    there is no candidate at all: a failed spawn, a timeout, a non-zero
    status and invalid JSON all give the empty list, and none of them
    raises. *)
Theorem failed_scan_gives_no_candidate (run : ScanRun) :
  reported run = None -> masscan_ips run = [].
Proof.
  intros H. apply masscan_ips_failed.
  destruct run as [e| |rc [report|]]; try exact I;
    destruct rc; try exact I; discriminate.
Qed.

Lemma failed_scan_gives_no_candidate_witness :
  masscan_ips (ScanFails FileNotFoundError) = [] /\
  masscan_ips ScanTimesOut = [] /\
  masscan_ips (ScanExits 1 (Some two_port_report)) = [] /\
  masscan_ips (ScanExits 0 None) = [].
Proof.
  split; [|split; [|split]];
    apply failed_scan_gives_no_candidate; reflexivity.
Defined.

(** ** A whole scan run *)

Lemma report_eq a n_ips n_open finish verified_ips w :
  Scan.report a n_ips n_open finish verified_ips w
  = Return tt
      (let w1 := scan_notify a (results_msg a n_ips n_open finish verified_ips)
                             w in
       if follow_up verified_ips
       then scan_notify a (VerifiedList (join NL verified_ips)) w1
       else w1).
Proof.
  unfold Scan.report, bind, follow_up. rewrite scan_send_eq. cbv zeta.
  destruct verified_ips as [|x rest]; [reflexivity|].
  destruct (_ <? 4000); [|reflexivity].
  now rewrite scan_send_eq.
Qed.

Lemma scan_notify_outbox a m w :
  outbox (scan_notify a m w)
  = (outbox w ++ if credentials_given a then [m] else [])%list.
Proof.
  unfold scan_notify, credentials_given.
  destruct (given (bot_token a)); destruct (given (chat_id a)); simpl;
    try reflexivity; now rewrite app_nil_r.
Qed.

Lemma scan_notify_files a m w :
  up_ips (scan_notify a m w) = up_ips w /\
  scan_results (scan_notify a m w) = scan_results w.
Proof.
  unfold scan_notify.
  destruct (negb (given (bot_token a)) || negb (given (chat_id a)));
    split; reflexivity.
Qed.

(** X19.  A scan run whose IP list can be read, whose pool size is
    positive and whose results can be written ends normally.  It writes the verified addresses to
    [up_ips.txt] and, to [scan_results.json], the number of addresses
    read, of candidates and of verified addresses with the list itself;
    with both notifier credentials given it posts the start notice, the
    summary and, when the list is non-empty and shorter than 4000
    characters, the whole list, in this order, and nothing else. *)
Theorem scan_run_outcome env w a content :
  parsed env = Some a ->
  read_text env (ip_list a) = inr content ->
  0 < max_workers a ->
  writable env = true ->
  let ips := stripped_lines content in
  let cands := masscan_ips (scan env) in
  let verified := verify_all env a cands in
  exists w',
    Scan.main env w = (Completed, w') /\
    up_ips w' = Some verified /\
    scan_results w'
    = Some (Z.of_nat (length ips), Z.of_nat (length cands),
            Z.of_nat (length verified), verified) /\
    outbox w'
    = (outbox w ++
       if credentials_given a then
         ScanStarted (upper (service a)) (Z.of_nat (length ips)) (port_of a)
                     (started env)
         :: results_msg a (Z.of_nat (length ips)) (Z.of_nat (length cands))
                        (finished env) verified
         :: (if follow_up verified
             then [VerifiedList (join NL verified)] else [])
       else [])%list.
Proof.
  intros Hp Hr Hn Hw. cbv zeta. unfold Scan.main. rewrite Hp, Hr.
  unfold Scan.session, bind.
  rewrite scan_send_eq, (executor_positive _ _ Hn), Hw.
  unfold modify at 1. rewrite report_eq. cbv zeta.
  eexists. split; [reflexivity|].
  unfold scan_notify, credentials_given, port_of.
  destruct (given (bot_token a)); destruct (given (chat_id a));
    destruct (follow_up _); cbn [negb orb andb outbox up_ips scan_results post];
    repeat split; rewrite <- ?app_assoc, ?app_nil_r; reflexivity.
Qed.

Lemma scan_run_outcome_witness :
  exists w',
    Scan.main env_all_up world0 = (Completed, w') /\
    up_ips w' = Some (verify_all env_all_up args_ssh
                                 (masscan_ips (scan env_all_up))) /\
    length (outbox w') = 3%nat.
Proof.
  destruct (scan_run_outcome env_all_up world0 args_ssh (join NL ips21)
              eq_refl eq_refl eq_refl eq_refl)
    as (w' & Hmain & Hups & _ & Hout).
  exists w'. split; [exact Hmain|]. split; [exact Hups|].
  rewrite Hout. reflexivity.
Defined.

Lemma masscan_ips_unreported (run : ScanRun) :
  reported run = None -> masscan_ips run = [].
Proof.
  intros H. apply masscan_ips_failed.
  destruct run as [e| |rc [report|]]; try exact I;
    destruct rc; try exact I; discriminate.
Qed.

(** X20.  When the scan itself fails (the tool is missing, times out, ends
    with a non-zero status or prints invalid JSON) a run with a positive
    pool size still ends normally with exit code 0: both result files are written with an
    empty list and zero counts, and the summary reports no open port and
    no verified address. *)
Theorem failed_scan_run_ends_normally env w a content :
  parsed env = Some a ->
  read_text env (ip_list a) = inr content ->
  0 < max_workers a ->
  writable env = true ->
  reported (scan env) = None ->
  completion env [] = [] ->
  let n := Z.of_nat (length (stripped_lines content)) in
  exists w',
    Scan.main env w = (Completed, w') /\
    exit_status (fst (Scan.main env w)) = 0 /\
    up_ips w' = Some [] /\
    scan_results w' = Some (n, 0, 0, []) /\
    outbox w'
    = (outbox w ++
       if credentials_given a then
         [ScanStarted (upper (service a)) n (port_of a) (started env);
          ScanCompleted (upper (service a)) n 0 0 (finished env) "" None]
       else [])%list.
Proof.
  intros Hp Hr Hn Hw Hscan Hdone. cbv zeta. unfold Scan.main.
  rewrite Hp, Hr. unfold Scan.session, bind.
  rewrite scan_send_eq, (executor_positive _ _ Hn), Hw.
  unfold modify. rewrite report_eq.
  rewrite (masscan_ips_unreported _ Hscan).
  unfold verify_all. rewrite Hdone. cbn [filter map length follow_up].
  cbv zeta. eexists. split; [reflexivity|].
  unfold scan_notify, credentials_given, port_of, results_msg.
  destruct (given (bot_token a)); destruct (given (chat_id a));
    cbn [negb orb andb outbox up_ips scan_results post fst exit_status];
    repeat split; rewrite <- ?app_assoc, ?app_nil_r; reflexivity.
Qed.

Lemma failed_scan_run_ends_normally_witness :
  exists w',
    Scan.main (mkEnv (Some args_ssh) (fun _ => inr "10.0.0.1")
                     (ScanFails FileNotFoundError) (fun _ _ => ProbeExits 0)
                     (fun l => l) "start" "end" true)
              world0
    = (Completed, w') /\
    up_ips w' = Some [].
Proof.
  destruct (failed_scan_run_ends_normally
              (mkEnv (Some args_ssh) (fun _ => inr "10.0.0.1")
                     (ScanFails FileNotFoundError) (fun _ _ => ProbeExits 0)
                     (fun l => l) "start" "end" true)
              world0 args_ssh "10.0.0.1"
              eq_refl eq_refl eq_refl eq_refl eq_refl eq_refl)
    as (w' & Hmain & _ & Hups & _).
  exists w'. split; assumption.
Defined.

(** ** The verification stage *)




(** ** Runs that stop early, and runs without credentials *)

(** X22.  Without both notifier credentials the scan driver posts nothing,
    however the run goes. *)
Theorem scan_is_silent_without_credentials env w :
  (forall a, parsed env = Some a -> credentials_given a = false) ->
  outbox (snd (Scan.main env w)) = outbox w.
Proof.
  intros Hcred. unfold Scan.main.
  destruct (parsed env) as [a|] eqn:Hp; [|reflexivity].
  specialize (Hcred a eq_refl).
  destruct (read_text env (ip_list a)) as [e|content].
  - destruct e; reflexivity.
  - unfold Scan.session, bind. rewrite scan_send_eq.
    destruct (Z.leb_spec (max_workers a) 0) as [Hn|Hn].
    + rewrite (executor_nonpositive _ _ Hn). cbn [snd].
      now rewrite scan_notify_outbox, Hcred, app_nil_r.
    + rewrite (executor_positive _ _ Hn). destruct (writable env).
      * unfold modify at 1. rewrite report_eq. cbv zeta.
        destruct (follow_up _); cbn [snd];
          rewrite !scan_notify_outbox; cbn [outbox];
          rewrite ?scan_notify_outbox, Hcred, ?app_nil_r; reflexivity.
      * cbn [raise snd]. now rewrite scan_notify_outbox, Hcred, app_nil_r.
Qed.

Lemma scan_is_silent_without_credentials_witness :
  outbox (snd (Scan.main
                 (mkEnv (Some (mkArgs "ssh" "ips.txt" 2 None None 50))
                        (fun _ => inr (join NL ips21))
                        (scan env_all_up) (fun _ _ => ProbeExits 0)
                        (fun l => l) "start" "end" true)
                 world0))
  = outbox world0.
Proof.
  apply (scan_is_silent_without_credentials
           (mkEnv (Some (mkArgs "ssh" "ips.txt" 2 None None 50))
                  (fun _ => inr (join NL ips21))
                  (scan env_all_up) (fun _ _ => ProbeExits 0)
                  (fun l => l) "start" "end" true)
           world0).
  intros a H. injection H as <-. reflexivity.
Defined.

(** X26.  With a zero or negative [--max-workers] and a readable IP list,
    the run sends the start notice, runs the scan, and then ends in a
    [ValueError] traceback when the pool is built: nothing is verified, no
    result file is written and no summary is sent. *)
Theorem nonpositive_pool_aborts_the_run env w a content :
  parsed env = Some a ->
  read_text env (ip_list a) = inr content ->
  max_workers a <= 0 ->
  exists w',
    Scan.main env w = (Uncaught ValueError, w') /\
    up_ips w' = up_ips w /\
    scan_results w' = scan_results w /\
    outbox w'
    = (outbox w ++
       if credentials_given a then
         [ScanStarted (upper (service a))
                      (Z.of_nat (length (stripped_lines content)))
                      (port_of a) (started env)]
       else [])%list.
Proof.
  intros Hp Hr Hn. unfold Scan.main. rewrite Hp, Hr.
  unfold Scan.session, bind.
  rewrite scan_send_eq, (executor_nonpositive _ _ Hn).
  eexists. split; [reflexivity|].
  destruct (scan_notify_files a
              (ScanStarted (upper (service a))
                           (Z.of_nat (length (stripped_lines content)))
                           (port_of a) (started env)) w) as [Hu Hs].
  unfold port_of in *. rewrite Hu, Hs, scan_notify_outbox.
  split; [reflexivity|]. split; reflexivity.
Qed.

Lemma nonpositive_pool_aborts_the_run_witness :
  exists w',
    Scan.main env_no_workers world0 = (Uncaught ValueError, w') /\
    up_ips w' = up_ips world0 /\
    scan_results w' = scan_results world0.
Proof.
  destruct (nonpositive_pool_aborts_the_run
              env_no_workers world0
              (mkArgs "ssh" "ips.txt" 2 (Some "123456:token") (Some "42") 0)
              (join NL ips21))
    as (w' & Hmain & Hu & Hs & _).
  - reflexivity.
  - reflexivity.
  - discriminate.
  - exists w'. split; [exact Hmain|]. split; assumption.
Defined.

End ScanMore.

(** * Further properties of the two entry points *)

Module EntryMore.

Import Text EntryViews EntryFacts.

(** X24.  A run that stops at a check has done nothing yet.  In
    [practice.py] a failed check ends the process with the world as it
    was: nothing posted, nothing spawned, no counter moved; a targets file
    that cannot be read ends it with a traceback, again with nothing
    posted, spawned or counted.  In [practice-3.py] an IP list that cannot
    be opened ends the run before the start notice is sent. *)
Theorem stopped_runs_leave_no_trace :
  (forall env w,
      brute_inputs_ok env w = false ->
      Brute.main env w = (SysExit 1, w)) /\
  (forall env w e,
      brute_inputs_ok env w = true ->
      Brute.read_text env (nth 2 (Brute.argv env) "") = inl e ->
      let w' := snd (Brute.main env w) in
      fst (Brute.main env w) = Uncaught e /\
      Brute.STATUS w' = Brute.STATUS w /\
      Brute.RESULTS w' = Brute.RESULTS w /\
      Brute.outbox w' = Brute.outbox w /\
      Brute.syslog w' = Brute.syslog w) /\
  (forall env w a e,
      Scan.parsed env = Some a ->
      Scan.read_text env (Scan.ip_list a) = inl e ->
      snd (Scan.main env w) = w).
Proof.
  split; [|split].
  - intros env w H. now apply brute_main_rejects.
  - intros env w e H Hread. cbv zeta. unfold brute_inputs_ok in H.
    apply andb_true_iff in H as [H Hhydra].
    apply andb_true_iff in H as [H Hpw].
    apply andb_true_iff in H as [Hlen Htg].
    unfold Brute.main.
    destruct (Z.ltb_spec (Z.of_nat (length (Brute.argv env))) 5);
      [apply Z.leb_le in Hlen; lia|].
    rewrite Htg, Hpw. cbn [negb]. unfold Brute.locate_hydra.
    destruct (Brute.isfile env (Brute.hydra (Brute.CONFIG w))).
    + rewrite Hread. repeat split.
    + simpl in Hhydra. rewrite Hhydra, Hread. repeat split.
  - intros env w a e Hp Hr. unfold Scan.main. rewrite Hp, Hr.
    destruct e; reflexivity.
Qed.

Lemma stopped_runs_leave_no_trace_witness :
  Brute.main env_no_targets (Brute.world0 0) = (SysExit 1, Brute.world0 0) /\
  snd (Scan.main ScanCases.env_missing_list Scan.world0) = Scan.world0.
Proof.
  destruct stopped_runs_leave_no_trace as (Hreject & _ & Hscan). split.
  - apply Hreject. reflexivity.
  - apply (Hscan ScanCases.env_missing_list Scan.world0 ScanCases.args_ssh
                 FileNotFoundError); reflexivity.
Defined.

(** ** The final messages *)

(** C8 (amended).  In [practice-3.py] the summary lists at most the first
    20 verified addresses and, when more than 20 exist, the count of those
    left out; a second message then carries the whole list whenever it is
    non-empty and its text is shorter than 4000 characters.  In
    [practice.py] the final message lists every recorded success: with a
    token configured, a session sends the final report, its list is the
    whole result log as it stands at the end of the session, and that log
    holds every entry it had at the start and every credential found by a
    task, however many they are. *)
Theorem C8_summary_listings :
  (forall a n_ips n_open finish verified_ips,
      exists preview rest,
        Scan.results_msg a n_ips n_open finish verified_ips
        = Scan.ScanCompleted (upper (Scan.service a)) n_ips n_open
                             (Z.of_nat (length verified_ips)) finish
                             (join NL preview)
                             (Scan.more_of verified_ips) /\
        verified_ips = (preview ++ rest)%list /\
        (length preview <= 20)%nat /\
        (rest = [] -> Scan.more_of verified_ips = None) /\
        (rest <> [] ->
         length preview = 20%nat /\
         Scan.more_of verified_ips = Some (Z.of_nat (length rest)))) /\
  (forall a n_ips n_open finish verified_ips w,
      Scan.given (Scan.bot_token a) = true ->
      Scan.given (Scan.chat_id a) = true ->
      verified_ips <> [] ->
      Z.of_nat (String.length (join NL verified_ips)) < 4000 ->
      exists w',
        Scan.report a n_ips n_open finish verified_ips w = Return tt w' /\
        Scan.outbox w'
        = (Scan.outbox w ++
           [Scan.results_msg a n_ips n_open finish verified_ips;
            Scan.VerifiedList (join NL verified_ips)])%list) /\
  (forall env service username password_list content w,
      MoreViews.unconfigured w = false ->
      let tasks := Brute.schedule_from env 0 (stripped_lines content) in
      let w' := world_of (Brute.session env service username password_list
                                        content w) in
      (exists n g b i e none,
          In (Brute.AttackCompleted n g b i e
                                    (Brute.success (Brute.RESULTS w')) none)
             (Brute.outbox w')) /\
      incl (Brute.success (Brute.RESULTS w))
           (Brute.success (Brute.RESULTS w')) /\
      (Brute.supported service = true ->
       (forall t r, In t tasks ->
                    In r (MoreViews.logins_of service t) ->
                    In r (Brute.success (Brute.RESULTS w'))) /\
       length (Brute.success (Brute.RESULTS w'))
       = (length (Brute.success (Brute.RESULTS w))
          + length (flat_map (MoreViews.logins_of service) tasks))%nat)).
Proof.
  split; [|split].
  - intros a n_ips n_open finish verified_ips.
    exists (firstn 20 verified_ips), (skipn 20 verified_ips).
    split; [reflexivity|]. apply preview_split.
  - intros a n_ips n_open finish verified_ips w Ht Hc Hne Hlen.
    unfold Scan.report, bind. rewrite scan_send_eq.
    destruct verified_ips as [|x rest]; [contradiction|].
    destruct (Z.ltb_spec (Z.of_nat (String.length (join NL (x :: rest)))) 4000)
      as [_|Hge]; [|lia].
    rewrite scan_send_eq. eexists. split; [reflexivity|].
    rewrite !scan_notify_given by assumption. simpl.
    now rewrite <- app_assoc.
  - intros env service username password_list content w Hu. cbv zeta.
    split; [|split].
    + destruct (BruteMore.session_final_report env service username
                  password_list content w Hu)
        as (rest & n & g & b & i & e & none & Hout).
      cbv zeta in Hout. exists n, g, b, i, e, none. rewrite Hout.
      apply in_or_app. right. now left.
    + apply BruteMore.session_keeps_log.
    + intros Hs. rewrite BruteMore.session_success by assumption. split.
      * intros t r Ht Hr. apply in_or_app. right.
        apply in_flat_map. exists t. split; assumption.
      * apply length_app.
Qed.

Lemma C8_summary_listings_witness :
  (exists w',
      Scan.report ScanCases.args_ssh 21 21 "2024-01-01 00:00:05"
                  ScanCases.ips21 Scan.world0 = Return tt w' /\
      Scan.outbox w'
      = (Scan.outbox Scan.world0 ++
         [Scan.results_msg ScanCases.args_ssh 21 21 "2024-01-01 00:00:05"
                           ScanCases.ips21;
          Scan.VerifiedList (join NL ScanCases.ips21)])%list) /\
  (let w := BruteCases.with_token (Brute.world0 0) in
   let w' := world_of (Brute.session env21 "ssh" "root" "pw.txt"
                                     (join NL ScanCases.ips21) w) in
   (exists n g b i e none,
       In (Brute.AttackCompleted n g b i e
                                 (Brute.success (Brute.RESULTS w')) none)
          (Brute.outbox w')) /\
   length (Brute.success (Brute.RESULTS w')) = 21%nat).
Proof.
  destruct C8_summary_listings as (_ & Hfull & Hfinal). split.
  - apply Hfull; try reflexivity.
    + discriminate.
  - cbv zeta.
    destruct (Hfinal env21 "ssh" "root" "pw.txt" (join NL ScanCases.ips21)
                     (BruteCases.with_token (Brute.world0 0)) eq_refl)
      as (Hlast & _ & Hall).
    split; [exact Hlast|].
    destruct (Hall eq_refl) as [_ Hlen]. rewrite Hlen.
    vm_compute. reflexivity.
Defined.

End EntryMore.
